(** * nanobot: the agent loop, its tool registry, session store, bus and
      background delegates, embedded from the Python sources.

    Conventions of the embedding.

    - Python values that travel as JSON (tool arguments, chat messages,
      session records) are [pyval]; a [dict] is an association list in
      insertion order.  Floating point numbers are not represented.
    - A Python call either returns or raises: [outcome].  The exception
      values are instances of Python's [Exception] class, the class the
      handlers in the sources name ([except Exception]); interpreter
      signals that are not [Exception]s (task cancellation, keyboard
      interrupt, interpreter exit) are outside the model.
    - Stateful code is written in a state-and-exception monad [M S]; a
      state change made before a raise stays made, as in Python.
    - [async]/[await] is sequential here: every coroutine of the modelled
      code is awaited where it is called. *)

From Stdlib Require Import ZArith String Ascii List Lia Bool.
From stdpp Require Import base option list strings gmap pretty.

Local Open Scope Z_scope.
Local Open Scope stdpp_scope.

(** ** Python preliminaries *)

Module Py.

(** An instance of [Exception]: its class name and [str(e)]. *)
Record exn := Exception { exn_class : string; exn_str : string }.

Inductive outcome (A : Type) :=
| Ok (a : A)
| Raise (e : exn).
Arguments Ok {A} a.
Arguments Raise {A} e.

Definition is_ok {A} (o : outcome A) : bool :=
  match o with Ok _ => true | Raise _ => false end.

(** The state-and-exception monad. *)
Definition M (S A : Type) : Type := S -> outcome A * S.

Definition ret {S A} (a : A) : M S A := fun s => (Ok a, s).

Definition bind {S A B} (c : M S A) (k : A -> M S B) : M S B :=
  fun s => match c s with
           | (Ok a, s') => k a s'
           | (Raise e, s') => (Raise e, s')
           end.

Definition raise {S A} (e : exn) : M S A := fun s => (Raise e, s).

(** [try: c except Exception as e: h e]. *)
Definition try_except {S A} (c : M S A) (h : exn -> M S A) : M S A :=
  fun s => match c s with
           | (Ok a, s') => (Ok a, s')
           | (Raise e, s') => h e s'
           end.

Definition get {S} : M S S := fun s => (Ok s, s).
Definition modify {S} (f : S -> S) : M S unit := fun s => (Ok tt, f s).

(** Run a computation on a component [T] of the state [S]. *)
Definition zoom {S T A} (proj : S -> T) (upd : T -> S -> S) (c : M T A) : M S A :=
  fun s => let (r, t) := c (proj s) in (r, upd t s).

Definition lift_outcome {S A} (o : outcome A) : M S A := fun s => (o, s).

End Py.
Export Py.

Declare Scope py_scope.
Delimit Scope py_scope with py.
Notation "x <- c1 ;; c2" := (bind c1 (fun x => c2))
  (at level 100, c1 at next level, right associativity) : py_scope.
Notation "c1 ;;; c2" := (bind c1 (fun _ => c2))
  (at level 100, right associativity) : py_scope.

(** ** Strings the way Python handles them *)

Module PyStr.

Definition colon : ascii := ":"%char.
Definition newline : ascii := "010"%char.

Definition nl : string := String newline EmptyString.

Fixpoint join (sep : string) (l : list string) : string :=
  match l with
  | [] => ""
  | [x] => x
  | x :: rest => x +:+ sep +:+ join sep rest
  end.

Definition startswith (s p : string) : bool := String.prefix p s.

(** [c in s] for a one-character [c]. *)
Fixpoint contains_char (c : ascii) (s : string) : bool :=
  match s with
  | EmptyString => false
  | String a s' => if Ascii.eqb a c then true else contains_char c s'
  end.

(** [s.split(c, 1)] as the pair (parts[0], parts[1]); [None] when [c]
    does not occur and the list has the one part [s]. *)
Fixpoint split_first (c : ascii) (s : string) : option (string * string) :=
  match s with
  | EmptyString => None
  | String a s' =>
      if Ascii.eqb a c then Some (EmptyString, s')
      else match split_first c s' with
           | Some (l, r) => Some (String a l, r)
           | None => None
           end
  end.

(** [s[:n]] for [n >= 0]. *)
Fixpoint take (n : nat) (s : string) : string :=
  match n, s with
  | S n', String a s' => String a (take n' s')
  | _, _ => EmptyString
  end.

Definition is_space (a : ascii) : bool :=
  let n := nat_of_ascii a in
  ((9 <=? n)%nat && (n <=? 13)%nat) || ((28 <=? n)%nat && (n <=? 32)%nat).

Fixpoint lstrip (s : string) : string :=
  match s with
  | String a s' => if is_space a then lstrip s' else s
  | EmptyString => EmptyString
  end.

Fixpoint rstrip (s : string) : string :=
  match s with
  | EmptyString => EmptyString
  | String a s' =>
      match rstrip s' with
      | EmptyString => if is_space a then EmptyString else String a EmptyString
      | r => String a r
      end
  end.

Definition strip (s : string) : string := rstrip (lstrip s).

Definition lower_char (a : ascii) : ascii :=
  let n := nat_of_ascii a in
  if ((65 <=? n)%nat && (n <=? 90)%nat) then ascii_of_nat (n + 32) else a.

Definition upper_char (a : ascii) : ascii :=
  let n := nat_of_ascii a in
  if ((97 <=? n)%nat && (n <=? 122)%nat) then ascii_of_nat (n - 32) else a.

Fixpoint map_chars (f : ascii -> ascii) (s : string) : string :=
  match s with
  | EmptyString => EmptyString
  | String a s' => String (f a) (map_chars f s')
  end.

Definition lower : string -> string := map_chars lower_char.
Definition upper : string -> string := map_chars upper_char.

Definition len (s : string) : Z := Z.of_nat (String.length s).

(** [sub in s], [s.count(sub)], [s.replace(old, new, 1)]. *)
Fixpoint find_from (fuel : nat) (sub s : string) : option (string * string) :=
  if String.prefix sub s then
    Some (EmptyString,
          String.substring (String.length sub) (String.length s - String.length sub) s)
  else
    match fuel, s with
    | S fuel', String a s' =>
        match find_from fuel' sub s' with
        | Some (before, after) => Some (String a before, after)
        | None => None
        end
    | _, _ => None
    end.

(** The text before and after the first occurrence of [sub]. *)
Definition find (sub s : string) : option (string * string) :=
  find_from (String.length s) sub s.

Definition contains (sub s : string) : bool :=
  match find sub s with Some _ => true | None => false end.

Fixpoint count_from (fuel : nat) (sub s : string) : Z :=
  match fuel with
  | O => 0
  | S fuel' =>
      match find sub s with
      | Some (_, after) =>
          if String.eqb sub "" then Z.of_nat (String.length s) + 1
          else 1 + count_from fuel' sub after
      | None => 0
      end
  end.

Definition count (sub s : string) : Z := count_from (S (String.length s)) sub s.

Definition replace_first (old new s : string) : string :=
  match find old s with
  | Some (before, after) => before +:+ new +:+ after
  | None => s
  end.

(** [s.split(c, 1)[-1]]: the text after the first [c], or all of [s]. *)
Definition after_first (c : ascii) (s : string) : string :=
  match split_first c s with
  | Some (_, r) => r
  | None => s
  end.

(** The text before the last occurrence of [sep], if [sep] occurs. *)
Fixpoint before_last (sep s : string) : option string :=
  match s with
  | EmptyString => if String.prefix sep EmptyString then Some EmptyString else None
  | String a s' =>
      match before_last sep s' with
      | Some b => Some (String a b)
      | None => if String.prefix sep s then Some EmptyString else None
      end
  end.

(** [s.rsplit(sep, 1)[0]]. *)
Definition rsplit_head (sep s : string) : string :=
  match before_last sep s with
  | Some b => b
  | None => s
  end.

End PyStr.

(** ** JSON-shaped Python values *)

#[warnings="-register-all"]
Inductive pyval :=
| PNone
| PBool (b : bool)
| PInt (z : Z)
| PStr (s : string)
| PList (l : list pyval)
| PDict (d : list (string * pyval)).

Module PyVal.

(** [d.get(k)] on an insertion-ordered dict. *)
Fixpoint lookup {A} (k : string) (d : list (string * A)) : option A :=
  match d with
  | [] => None
  | (k', v) :: rest => if String.eqb k' k then Some v else lookup k rest
  end.

Definition has_key {A} (k : string) (d : list (string * A)) : bool :=
  match lookup k d with Some _ => true | None => false end.

Definition keys {A} (d : list (string * A)) : list string := map fst d.

(** Truthiness, as [if v:] and [v or default] test it. *)
Definition truthy (v : pyval) : bool :=
  match v with
  | PNone => false
  | PBool b => b
  | PInt z => negb (z =? 0)
  | PStr s => negb (String.eqb s "")
  | PList l => match l with [] => false | _ => true end
  | PDict d => match d with [] => false | _ => true end
  end.

(** [bool] is a subclass of [int]: [True] counts as 1 wherever a number
    is expected. *)
Definition as_int (v : pyval) : option Z :=
  match v with
  | PInt z => Some z
  | PBool b => Some (if b then 1 else 0)
  | _ => None
  end.

(** [a == b]. Numbers compare by value across [bool] and [int]; dicts
    compare as maps, whatever the insertion order. *)
Fixpoint eqb (a b : pyval) {struct a} : bool :=
  match a with
  | PNone => match b with PNone => true | _ => false end
  | PBool x =>
      match as_int b with Some z => (if x then 1 else 0) =? z | None => false end
  | PInt x =>
      match as_int b with Some z => x =? z | None => false end
  | PStr s => match b with PStr t => String.eqb s t | _ => false end
  | PList l =>
      match b with
      | PList l' =>
          (fix go (xs : list pyval) (ys : list pyval) : bool :=
             match xs, ys with
             | [], [] => true
             | x :: xs', y :: ys' => eqb x y && go xs' ys'
             | _, _ => false
             end) l l'
      | _ => false
      end
  | PDict d =>
      match b with
      | PDict d' =>
          (length d =? length d')%nat &&
          (fix go (xs : list (string * pyval)) : bool :=
             match xs with
             | [] => true
             | (k, v) :: xs' =>
                 match lookup k d' with
                 | Some v' => eqb v v' && go xs'
                 | None => false
                 end
             end) d
      | _ => false
      end
  end.

(** [v in l] for a list [l]. *)
Definition mem (v : pyval) (l : list pyval) : bool := existsb (eqb v) l.

Definition hex_digit (n : nat) : ascii :=
  ascii_of_nat (if (n <? 10)%nat then 48 + n else 87 + n).

(** [repr(s)]: single quotes unless the text has a single quote and no
    double quote; backslash, the quote in use and control characters are
    escaped. *)
Definition repr_char (q : ascii) (a : ascii) : string :=
  let n := nat_of_ascii a in
  if Ascii.eqb a "\"%char then "\\"
  else if Ascii.eqb a q then String "\"%char (String a EmptyString)
  else if (n =? 10)%nat then "\n"
  else if (n =? 13)%nat then "\r"
  else if (n =? 9)%nat then "\t"
  else if ((n <? 32)%nat || (n =? 127)%nat) then
    "\x" +:+ String (hex_digit (n / 16)) (String (hex_digit (n mod 16)) EmptyString)
  else String a EmptyString.

Fixpoint repr_chars (q : ascii) (s : string) : string :=
  match s with
  | EmptyString => EmptyString
  | String a s' => repr_char q a +:+ repr_chars q s'
  end.

Definition dquote : ascii := ascii_of_nat 34.
Definition squote : ascii := ascii_of_nat 39.

Definition repr_str (s : string) : string :=
  let q := if PyStr.contains_char squote s && negb (PyStr.contains_char dquote s)
           then dquote else squote in
  String q (repr_chars q s +:+ String q EmptyString).

Fixpoint repr (v : pyval) : string :=
  match v with
  | PNone => "None"
  | PBool b => if b then "True" else "False"
  | PInt z => pretty z
  | PStr s => repr_str s
  | PList l =>
      "[" +:+ PyStr.join ", " (map repr l) +:+ "]"
  | PDict d =>
      "{" +:+ PyStr.join ", "
                (map (fun kv : string * pyval => repr_str (fst kv) +:+ ": " +:+ repr (snd kv)) d)
          +:+ "}"
  end.

(** [json.dumps(v)] with the default separators.  Strings are byte
    strings here, so bytes above 127 are written as they are. *)
Definition json_char (a : ascii) : string :=
  let n := nat_of_ascii a in
  if (n =? 34)%nat then String "\"%char (String dquote EmptyString)
  else if (n =? 92)%nat then "\\"
  else if (n =? 10)%nat then "\n"
  else if (n =? 13)%nat then "\r"
  else if (n =? 9)%nat then "\t"
  else if (n =? 8)%nat then "\b"
  else if (n =? 12)%nat then "\f"
  else if (n <? 32)%nat then
    "\u00" +:+ String (hex_digit (n / 16)) (String (hex_digit (n mod 16)) EmptyString)
  else String a EmptyString.

Fixpoint json_chars (s : string) : string :=
  match s with
  | EmptyString => EmptyString
  | String a s' => json_char a +:+ json_chars s'
  end.

Definition json_str (s : string) : string :=
  String dquote (json_chars s +:+ String dquote EmptyString).

Fixpoint json_dumps (v : pyval) : string :=
  match v with
  | PNone => "null"
  | PBool b => if b then "true" else "false"
  | PInt z => pretty z
  | PStr s => json_str s
  | PList l => "[" +:+ PyStr.join ", " (map json_dumps l) +:+ "]"
  | PDict d =>
      "{" +:+ PyStr.join ", "
                (map (fun kv : string * pyval =>
                        json_str (fst kv) +:+ ": " +:+ json_dumps (snd kv)) d)
          +:+ "}"
  end.

End PyVal.

(** ** agent/tools/base.py: the tool interface and its schema validation *)

(** A JSON-Schema fragment as the tools write it.  An absent
    ["properties"] or ["required"] reads as empty, as [schema.get] with
    its default does. *)
#[warnings="-register-all"]
Inductive schema := Schema {
  s_type : option string;
  s_enum : option (list pyval);
  s_minimum : option Z;
  s_maximum : option Z;
  s_minLength : option Z;
  s_maxLength : option Z;
  s_properties : list (string * schema);
  s_required : list string;
  s_items : option schema
}.

Definition empty_schema : schema :=
  Schema None None None None None None [] [] None.

Definition with_type (t : string) (s : schema) : schema :=
  Schema (Some t) (s_enum s) (s_minimum s) (s_maximum s) (s_minLength s)
         (s_maxLength s) (s_properties s) (s_required s) (s_items s).

Module ToolBase.

(** [_TYPE_MAP] together with [isinstance]: [None] when the type name is
    not a key of the table. *)
Definition isinstance_of (t : string) (val : pyval) : option bool :=
  if String.eqb t "string" then Some (match val with PStr _ => true | _ => false end)
  else if String.eqb t "integer" then
    Some (match val with PInt _ | PBool _ => true | _ => false end)
  else if String.eqb t "number" then
    Some (match val with PInt _ | PBool _ => true | _ => false end)
  else if String.eqb t "boolean" then Some (match val with PBool _ => true | _ => false end)
  else if String.eqb t "array" then Some (match val with PList _ => true | _ => false end)
  else if String.eqb t "object" then Some (match val with PDict _ => true | _ => false end)
  else None.

Definition type_mismatch (t : option string) (val : pyval) : bool :=
  match t with
  | Some t' => match isinstance_of t' val with Some b => negb b | None => false end
  | None => false
  end.

Definition type_is (t : option string) (name : string) : bool :=
  match t with Some t' => String.eqb t' name | None => false end.

Definition dotted (path k : string) : string :=
  if String.eqb path "" then k else path +:+ "." +:+ k.

Definition indexed (path : string) (i : nat) : string :=
  path +:+ "[" +:+ pretty i +:+ "]".

Definition enum_errors (sch : schema) (val : pyval) (label : string) : list string :=
  match s_enum sch with
  | Some l => if PyVal.mem val l then []
              else [label +:+ " must be one of " +:+ PyVal.repr (PList l)]
  | None => []
  end.

Definition range_errors (sch : schema) (val : pyval) (label : string) : list string :=
  match PyVal.as_int val with
  | Some z =>
      (match s_minimum sch with
       | Some m => if z <? m then [label +:+ " must be >= " +:+ pretty m] else []
       | None => []
       end) ++
      (match s_maximum sch with
       | Some m => if m <? z then [label +:+ " must be <= " +:+ pretty m] else []
       | None => []
       end)
  | None => []
  end.

Definition length_errors (sch : schema) (val : pyval) (label : string) : list string :=
  match val with
  | PStr s =>
      (match s_minLength sch with
       | Some m => if PyStr.len s <? m
                   then [label +:+ " must be at least " +:+ pretty m +:+ " chars"] else []
       | None => []
       end) ++
      (match s_maxLength sch with
       | Some m => if m <? PyStr.len s
                   then [label +:+ " must be at most " +:+ pretty m +:+ " chars"] else []
       | None => []
       end)
  | _ => []
  end.

Definition required_errors (sch : schema) (d : list (string * pyval)) (path : string)
  : list string :=
  flat_map (fun k => if PyVal.has_key k d then []
                     else ["missing required " +:+ dotted path k])
           (s_required sch).

(** [Tool._validate]. *)
Fixpoint _validate (val : pyval) (sch : schema) (path : string) {struct val}
  : list string :=
  let t := s_type sch in
  let label := if String.eqb path "" then "parameter" else path in
  if type_mismatch t val then
    [label +:+ " should be " +:+ default "" t]
  else
    enum_errors sch val label
    ++ (if type_is t "integer" || type_is t "number" then range_errors sch val label else [])
    ++ (if type_is t "string" then length_errors sch val label else [])
    ++ (if type_is t "object" then
          match val with
          | PDict d =>
              required_errors sch d path
              ++ (fix props (items : list (string * pyval)) : list string :=
                    match items with
                    | [] => []
                    | (k, v) :: rest =>
                        (match PyVal.lookup k (s_properties sch) with
                         | Some sk => _validate v sk (dotted path k)
                         | None => []
                         end) ++ props rest
                    end) d
          | _ => []
          end
        else [])
    ++ (if type_is t "array" then
          match s_items sch, val with
          | Some si, PList l =>
              (fix elems (i : nat) (items : list pyval) : list string :=
                 match items with
                 | [] => []
                 | item :: rest => _validate item si (indexed path i) ++ elems (S i) rest
                 end) 0%nat l
          | _, _ => []
          end
        else []).

(** The two loops of [_validate], named so that lemmas can speak of them. *)
Fixpoint validate_props (sch : schema) (path : string) (items : list (string * pyval))
  : list string :=
  match items with
  | [] => []
  | (k, v) :: rest =>
      (match PyVal.lookup k (s_properties sch) with
       | Some sk => _validate v sk (dotted path k)
       | None => []
       end) ++ validate_props sch path rest
  end.

Fixpoint validate_elems (si : schema) (path : string) (i : nat) (items : list pyval)
  : list string :=
  match items with
  | [] => []
  | item :: rest => _validate item si (indexed path i) ++ validate_elems si path (S i) rest
  end.

(** The checks as the specification lists them: type, required fields,
    enum membership, numeric range, string length, and the same inside
    nested objects and arrays.  [spec_violation sch v] says that [v]
    breaks at least one of them. *)
Inductive spec_violation : schema -> pyval -> Prop :=
| viol_type sch v t :
    s_type sch = Some t -> isinstance_of t v = Some false ->
    spec_violation sch v
| viol_enum sch v l :
    s_enum sch = Some l -> PyVal.mem v l = false ->
    spec_violation sch v
| viol_minimum sch v z m :
    type_is (s_type sch) "integer" || type_is (s_type sch) "number" = true ->
    PyVal.as_int v = Some z -> s_minimum sch = Some m -> z < m ->
    spec_violation sch v
| viol_maximum sch v z m :
    type_is (s_type sch) "integer" || type_is (s_type sch) "number" = true ->
    PyVal.as_int v = Some z -> s_maximum sch = Some m -> m < z ->
    spec_violation sch v
| viol_minLength sch s m :
    type_is (s_type sch) "string" = true ->
    s_minLength sch = Some m -> PyStr.len s < m ->
    spec_violation sch (PStr s)
| viol_maxLength sch s m :
    type_is (s_type sch) "string" = true ->
    s_maxLength sch = Some m -> m < PyStr.len s ->
    spec_violation sch (PStr s)
| viol_required sch d k :
    type_is (s_type sch) "object" = true ->
    In k (s_required sch) -> PyVal.has_key k d = false ->
    spec_violation sch (PDict d)
| viol_property sch d k v sk :
    type_is (s_type sch) "object" = true ->
    In (k, v) d -> PyVal.lookup k (s_properties sch) = Some sk ->
    spec_violation sk v ->
    spec_violation sch (PDict d)
| viol_item sch l si v :
    type_is (s_type sch) "array" = true ->
    s_items sch = Some si -> In v l ->
    spec_violation si v ->
    spec_violation sch (PList l).

(** A tool: name, description, parameter schema and an [execute] body
    acting on whatever state [T] the tools share.  The body receives the
    keyword arguments as a dict. *)
Record Tool (T : Type) := {
  tool_name : string;
  tool_description : string;
  tool_parameters : schema;
  tool_execute : list (string * pyval) -> M T string
}.
Arguments tool_name {T} _.
Arguments tool_description {T} _.
Arguments tool_parameters {T} _.
Arguments tool_execute {T} _ _ _.

(** [Tool.validate_params]. *)
Definition validate_params {T} (tool : Tool T) (params : pyval) : outcome (list string) :=
  let sch := tool_parameters tool in
  if negb (String.eqb (default "object" (s_type sch)) "object") then
    Raise (Exception "ValueError"
             ("Schema must be object type, got " +:+ PyVal.repr_str (default "object" (s_type sch))))
  else Ok (_validate params (with_type "object" sch) "").

End ToolBase.
Export ToolBase.

(** ** agent/tools/registry.py *)

Module Registry.

Section WithToolState.

Context {T : Type}.

(** What running tools can change: the state the bodies act on, and the
    record of every body that was entered (name and keyword arguments,
    newest first). *)
Record tool_env := ToolEnv {
  te_state : T;
  te_invoked : list (string * list (string * pyval))
}.

Definition set_te_state (t : T) (w : tool_env) : tool_env :=
  ToolEnv t (te_invoked w).

Definition note_invoked (name : string) (kw : list (string * pyval)) : M tool_env unit :=
  modify (fun w => ToolEnv (te_state w) ((name, kw) :: te_invoked w)).

(** [ToolRegistry._tools]. *)
Definition ToolRegistry : Type := gmap string (Tool T).

Definition register (tool : Tool T) (reg : ToolRegistry) : ToolRegistry :=
  <[tool_name tool := tool]> reg.

Definition unregister (name : string) (reg : ToolRegistry) : ToolRegistry :=
  delete name reg.

Definition get_tool (name : string) (reg : ToolRegistry) : option (Tool T) :=
  reg !! name.

Definition has (name : string) (reg : ToolRegistry) : bool :=
  bool_decide (is_Some (reg !! name)).

(** [await tool.execute] with [params] unpacked as keyword arguments:
    unpacking needs a mapping. *)
Definition call_execute (tool : Tool T) (params : pyval) : M tool_env string :=
  match params with
  | PDict kw =>
      (note_invoked (tool_name tool) kw ;;;
       zoom te_state set_te_state (tool_execute tool kw))%py
  | _ => raise (Exception "TypeError" "argument after ** must be a mapping")
  end.

Definition not_found (name : string) : string :=
  "Error: Tool '" +:+ name +:+ "' not found".

Definition invalid_parameters (name : string) (errors : list string) : string :=
  "Error: Invalid parameters for tool '" +:+ name +:+ "': " +:+ PyStr.join "; " errors.

Definition error_executing (name : string) (e : exn) : string :=
  "Error executing " +:+ name +:+ ": " +:+ exn_str e.

(** [ToolRegistry.execute]. *)
Definition execute (reg : ToolRegistry) (name : string) (params : pyval)
  : M tool_env string :=
  match reg !! name with
  | None => ret (not_found name)
  | Some tool =>
      try_except
        (errors <- lift_outcome (validate_params tool params) ;;
         match errors with
         | _ :: _ => ret (invalid_parameters name errors)
         | [] => call_execute tool params
         end)%py
        (fun e => ret (error_executing name e))
  end.

End WithToolState.

Arguments tool_env : clear implicits.
Arguments ToolRegistry : clear implicits.

End Registry.

(** ** agent/tools/filesystem.py *)

Module Filesystem.

(** What the tools ask of [pathlib] and the operating system, over some
    file-system state [F].  Paths are handled as the text [str(path)]
    gives. *)
Class PathLib (F : Type) := {
  (** [str(Path(p).expanduser().resolve())] *)
  resolve : string -> F -> outcome string;
  path_exists : string -> F -> bool;
  is_file : string -> F -> bool;
  is_dir : string -> F -> bool;
  read_text : string -> M F string;
  write_text : string -> string -> M F unit;
  (** [path.parent.mkdir(parents=True, exist_ok=True)] *)
  mkdir_parent : string -> M F unit;
  (** [sorted(path.iterdir())]: entry names, each with [is_dir()] *)
  iterdir_sorted : string -> M F (list (string * bool))
}.

Section Tools.

Context {F : Type} `{PathLib F}.

Definition outside_error (path allowed_dir : string) : exn :=
  Exception "PermissionError"
            ("Path " +:+ path +:+ " is outside allowed directory " +:+ allowed_dir).

(** [_resolve_path]. *)
Definition _resolve_path (path : string) (allowed_dir : option string) : M F string :=
  (fs <- get ;;
   resolved <- lift_outcome (resolve path fs) ;;
   match allowed_dir with
   | Some dir =>
       root <- lift_outcome (resolve dir fs) ;;
       if negb (PyStr.startswith resolved root)
       then raise (outside_error path dir)
       else ret resolved
   | None => ret resolved
   end)%py.

(** The two handlers every tool body ends with:
    [except PermissionError as e] and [except Exception as e]. *)
Definition handle (what : string) (e : exn) : M F string :=
  if String.eqb (exn_class e) "PermissionError"
  then ret ("Error: " +:+ exn_str e)
  else ret ("Error " +:+ what +:+ ": " +:+ exn_str e).

(** A keyword argument that the signature names; binding fails before
    the body starts when it is missing. *)
Definition kwarg (name : string) (kw : list (string * pyval)) : M F pyval :=
  match PyVal.lookup name kw with
  | Some v => ret v
  | None => raise (Exception "TypeError"
                     ("execute() missing 1 required positional argument: '" +:+ name +:+ "'"))
  end.

(** [Path(v)], [write_text(v)], [v in content] and [replace(.., v, 1)]
    all take text and raise [TypeError] on anything else. *)
Definition as_text (v : pyval) : M F string :=
  match v with
  | PStr s => ret s
  | _ => raise (Exception "TypeError" "expected str")
  end.

Definition string_property (name : string) : string * schema :=
  (name, with_type "string" empty_schema).

Definition object_schema (props : list (string * schema)) (required : list string) : schema :=
  Schema (Some "object") None None None None None props required None.

(** [ReadFileTool]. *)
Definition ReadFileTool (allowed_dir : option string) : Tool F := {|
  tool_name := "read_file";
  tool_description := "Read the contents of a file at the given path.";
  tool_parameters := object_schema [string_property "path"] ["path"];
  tool_execute := fun kw =>
    (pv <- kwarg "path" kw ;;
     try_except
       (path <- as_text pv ;;
        file_path <- _resolve_path path allowed_dir ;;
        fs <- get ;;
        if negb (path_exists file_path fs) then ret ("Error: File not found: " +:+ path)
        else if negb (is_file file_path fs) then ret ("Error: Not a file: " +:+ path)
        else read_text file_path)
       (handle "reading file"))%py
|}.

(** [WriteFileTool]. *)
Definition WriteFileTool (allowed_dir : option string) : Tool F := {|
  tool_name := "write_file";
  tool_description :=
    "Write content to a file at the given path. Creates parent directories if needed.";
  tool_parameters :=
    object_schema [string_property "path"; string_property "content"] ["path"; "content"];
  tool_execute := fun kw =>
    (pv <- kwarg "path" kw ;;
     cv <- kwarg "content" kw ;;
     try_except
       (path <- as_text pv ;;
        file_path <- _resolve_path path allowed_dir ;;
        mkdir_parent file_path ;;;
        content <- as_text cv ;;
        write_text file_path content ;;;
        ret ("Successfully wrote " +:+ pretty (PyStr.len content) +:+ " bytes to " +:+ path))
       (handle "writing file"))%py
|}.

(** [EditFileTool]. *)
Definition EditFileTool (allowed_dir : option string) : Tool F := {|
  tool_name := "edit_file";
  tool_description :=
    "Edit a file by replacing old_text with new_text. The old_text must exist exactly in the file.";
  tool_parameters :=
    object_schema [string_property "path"; string_property "old_text"; string_property "new_text"]
                  ["path"; "old_text"; "new_text"];
  tool_execute := fun kw =>
    (pv <- kwarg "path" kw ;;
     ov <- kwarg "old_text" kw ;;
     nv <- kwarg "new_text" kw ;;
     try_except
       (path <- as_text pv ;;
        file_path <- _resolve_path path allowed_dir ;;
        fs <- get ;;
        if negb (path_exists file_path fs) then ret ("Error: File not found: " +:+ path)
        else
          content <- read_text file_path ;;
          old_text <- as_text ov ;;
          if negb (PyStr.contains old_text content)
          then ret "Error: old_text not found in file. Make sure it matches exactly."
          else
            let n := PyStr.count old_text content in
            if 1 <? n
            then ret ("Warning: old_text appears " +:+ pretty n
                      +:+ " times. Please provide more context to make it unique.")
            else
              new_text <- as_text nv ;;
              write_text file_path (PyStr.replace_first old_text new_text content) ;;;
              ret ("Successfully edited " +:+ path))
       (handle "editing file"))%py
|}.

Definition folder_icon : string := "📁 ".
Definition page_icon : string := "📄 ".

(** [ListDirTool]. *)
Definition ListDirTool (allowed_dir : option string) : Tool F := {|
  tool_name := "list_dir";
  tool_description := "List the contents of a directory.";
  tool_parameters := object_schema [string_property "path"] ["path"];
  tool_execute := fun kw =>
    (pv <- kwarg "path" kw ;;
     try_except
       (path <- as_text pv ;;
        dir_path <- _resolve_path path allowed_dir ;;
        fs <- get ;;
        if negb (path_exists dir_path fs) then ret ("Error: Directory not found: " +:+ path)
        else if negb (is_dir dir_path fs) then ret ("Error: Not a directory: " +:+ path)
        else
          entries <- iterdir_sorted dir_path ;;
          let items := map (fun e : string * bool =>
                              (if snd e then folder_icon else page_icon) +:+ fst e) entries in
          match items with
          | [] => ret ("Directory " +:+ path +:+ " is empty")
          | _ => ret (PyStr.join PyStr.nl items)
          end)
       (handle "listing directory"))%py
|}.


End Tools.

End Filesystem.

(** ** datetime, as far as the session store uses it *)

Module DateTime.

(** A naive [datetime]. *)
Record datetime := DT {
  year : Z; month : Z; day : Z;
  hour : Z; minute : Z; second : Z; microsecond : Z
}.

Definition digit (n : Z) : ascii := ascii_of_nat (48 + Z.to_nat (n mod 10)).

(** [n] in decimal, zero-padded to [w] digits. *)
Fixpoint pad (w : nat) (n : Z) : string :=
  match w with
  | O => EmptyString
  | S w' => pad w' (n / 10) +:+ String (digit n) EmptyString
  end.

(** [datetime.isoformat]: the fraction is written only when it is not zero. *)
Definition isoformat (d : datetime) : string :=
  pad 4 (year d) +:+ "-" +:+ pad 2 (month d) +:+ "-" +:+ pad 2 (day d) +:+ "T"
  +:+ pad 2 (hour d) +:+ ":" +:+ pad 2 (minute d) +:+ ":" +:+ pad 2 (second d)
  +:+ (if microsecond d =? 0 then "" else "." +:+ pad 6 (microsecond d)).

Definition digit_value (a : ascii) : option Z :=
  let n := nat_of_ascii a in
  if ((48 <=? n)%nat && (n <=? 57)%nat) then Some (Z.of_nat n - 48) else None.

(** Read exactly [w] decimal digits. *)
Fixpoint digits (w : nat) (acc : Z) (s : string) : option (Z * string) :=
  match w with
  | O => Some (acc, s)
  | S w' =>
      match s with
      | String a s' =>
          match digit_value a with
          | Some v => digits w' (10 * acc + v) s'
          | None => None
          end
      | EmptyString => None
      end
  end.

Definition expect (c : ascii) (s : string) : option string :=
  match s with
  | String a s' => if Ascii.eqb a c then Some s' else None
  | EmptyString => None
  end.

Definition is_leap (y : Z) : bool :=
  ((y mod 4 =? 0) && negb (y mod 100 =? 0)) || (y mod 400 =? 0).

Definition days_in_month (y m : Z) : Z :=
  if m =? 2 then (if is_leap y then 29 else 28)
  else if (m =? 4) || (m =? 6) || (m =? 9) || (m =? 11) then 30
  else 31.

(** The values the [datetime] constructor accepts. *)
Definition valid (d : datetime) : bool :=
  (1 <=? year d) && (year d <=? 9999) &&
  (1 <=? month d) && (month d <=? 12) &&
  (1 <=? day d) && (day d <=? days_in_month (year d) (month d)) &&
  (0 <=? hour d) && (hour d <? 24) &&
  (0 <=? minute d) && (minute d <? 60) &&
  (0 <=? second d) && (second d <? 60) &&
  (0 <=? microsecond d) && (microsecond d <? 1000000).

Definition parse (s : string) : option datetime :=
  '(y, s) ← digits 4 0 s; s ← expect "-" s;
  '(mo, s) ← digits 2 0 s; s ← expect "-" s;
  '(d, s) ← digits 2 0 s; s ← expect "T" s;
  '(h, s) ← digits 2 0 s; s ← expect ":" s;
  '(mi, s) ← digits 2 0 s; s ← expect ":" s;
  '(se, s) ← digits 2 0 s;
  match s with
  | EmptyString => Some (DT y mo d h mi se 0)
  | _ => s ← expect "." s;
         '(us, s) ← digits 6 0 s;
         match s with
         | EmptyString => Some (DT y mo d h mi se us)
         | _ => None
         end
  end.

(** [datetime.fromisoformat] on the texts [isoformat] writes for naive
    values; anything else is a [ValueError]. *)
Definition fromisoformat (s : string) : outcome datetime :=
  match parse s with
  | Some d => if valid d then Ok d
              else Raise (Exception "ValueError" "value is out of range")
  | None => Raise (Exception "ValueError" ("Invalid isoformat string: " +:+ PyVal.repr_str s))
  end.

End DateTime.
Export DateTime.

(** ** Logging (loguru) *)

Inductive level := DEBUG | INFO | WARNING | ERROR.

Definition log_record : Type := level * string.

(** ** session/manager.py *)

Definition pydict : Type := list (string * pyval).

Module SessionStore.

(** [d[k] = v]: an existing key keeps its place. *)
Fixpoint dict_set (k : string) (v : pyval) (d : pydict) : pydict :=
  match d with
  | [] => [(k, v)]
  | (k', v') :: rest =>
      if String.eqb k' k then (k, v) :: rest else (k', v') :: dict_set k v rest
  end.

(** The dict display [{**d, **kwargs}]. *)
Definition dict_update (d kwargs : pydict) : pydict :=
  fold_left (fun acc kv => dict_set (fst kv) (snd kv) acc) kwargs d.

(** [d[k]]. *)
Definition getitem (k : string) (d : pydict) : outcome pyval :=
  match PyVal.lookup k d with
  | Some v => Ok v
  | None => Raise (Exception "KeyError" (PyVal.repr_str k))
  end.

(** [l[start:]] for any integer [start]. *)
Definition slice_from {A} (start : Z) (l : list A) : list A :=
  let n := Z.of_nat (length l) in
  let i := if start <? 0 then Z.max 0 (n + start) else Z.min start n in
  drop (Z.to_nat i) l.

Record Session := {
  key : string;
  messages : list pydict;
  created_at : datetime;
  updated_at : datetime;
  metadata : pyval
}.

(** [Session(key=key)]: the defaults read the clock. *)
Definition new_session (now : datetime) (k : string) : Session :=
  {| key := k; messages := []; created_at := now; updated_at := now;
     metadata := PDict [] |}.

(** [Session.add_message]. *)
Definition add_message (now : datetime) (role : string) (content : pyval)
    (kwargs : pydict) (s : Session) : Session :=
  let msg := dict_update [("role", PStr role); ("content", content);
                          ("timestamp", PStr (isoformat now))] kwargs in
  {| key := key s; messages := messages s ++ [msg];
     created_at := created_at s; updated_at := now; metadata := metadata s |}.

Fixpoint outcomes {A} (l : list (outcome A)) : outcome (list A) :=
  match l with
  | [] => Ok []
  | Ok a :: rest =>
      match outcomes rest with Ok r => Ok (a :: r) | Raise e => Raise e end
  | Raise e :: _ => Raise e
  end.

Definition role_and_content (m : pydict) : outcome pydict :=
  match getitem "role" m with
  | Ok r => match getitem "content" m with
            | Ok c => Ok [("role", r); ("content", c)]
            | Raise e => Raise e
            end
  | Raise e => Raise e
  end.

(** [Session.get_history]. *)
Definition get_history (max_messages : Z) (s : Session) : outcome (list pydict) :=
  let recent :=
    if max_messages <? Z.of_nat (length (messages s))
    then slice_from (- max_messages) (messages s)
    else messages s in
  outcomes (map role_and_content recent).

(** The default of [max_messages]. *)
Definition default_max_messages : Z := 50.

(** [Session.clear]. *)
Definition clear (now : datetime) (s : Session) : Session :=
  {| key := key s; messages := []; created_at := created_at s;
     updated_at := now; metadata := metadata s |}.

(** [utils.helpers.safe_filename]. *)
Definition unsafe_chars : string := "<>:" +:+ String PyVal.dquote "/\|?*".

Definition safe_filename (name : string) : string :=
  PyStr.strip
    (PyStr.map_chars (fun a => if PyStr.contains_char a unsafe_chars then "_"%char else a)
                     name).

(** One line of a session file: the record whose [json.dumps] text the
    line holds, a blank line, or text that [json.loads] rejects. *)
Inductive line :=
| JsonLine (v : pyval)
| BlankLine
| BadLine (text : string).

Record SessionManager := {
  (** the files of [sessions_dir], by file name *)
  sessions_dir : gmap string (list line);
  (** file names that [open(path, "w")] refuses, and the error it raises *)
  open_error : string -> option exn;
  _cache : gmap string Session
}.

Definition with_files (files : gmap string (list line)) (m : SessionManager) :=
  {| sessions_dir := files; open_error := open_error m; _cache := _cache m |}.

Definition with_cache (cache : gmap string Session) (m : SessionManager) :=
  {| sessions_dir := sessions_dir m; open_error := open_error m; _cache := cache |}.

(** [SessionManager._get_session_path], as the file name. *)
Definition _get_session_path (k : string) : string :=
  safe_filename (PyStr.map_chars (fun a => if Ascii.eqb a ":" then "_"%char else a) k)
  +:+ ".jsonl".

(** [d.get(k)] on a parsed line: only a dict has [get]. *)
Definition data_get (k : string) (data : pyval) : outcome (option pyval) :=
  match data with
  | PDict d => Ok (PyVal.lookup k d)
  | _ => Raise (Exception "AttributeError" "object has no attribute 'get'")
  end.

Record load_state := {
  ld_messages : list pydict;
  ld_metadata : pyval;
  ld_created_at : option datetime
}.

(** [data.get("_type") == "metadata"]. *)
Definition is_metadata (d : pydict) : bool :=
  match PyVal.lookup "_type" d with
  | Some t => PyVal.eqb t (PStr "metadata")
  | None => false
  end.

(** The body of the [for line in f] loop of [_load]. *)
Definition load_line (st : load_state) (l : line) : outcome load_state :=
  match l with
  | BlankLine => Ok st
  | BadLine _ => Raise (Exception "JSONDecodeError" "Expecting value")
  | JsonLine data =>
      match data with
      | PDict d =>
          if is_metadata d then
            let md := default (PDict []) (PyVal.lookup "metadata" d) in
            match PyVal.lookup "created_at" d with
            | Some c =>
                if PyVal.truthy c then
                  match c with
                  | PStr text =>
                      match fromisoformat text with
                      | Ok t => Ok {| ld_messages := ld_messages st; ld_metadata := md;
                                      ld_created_at := Some t |}
                      | Raise e => Raise e
                      end
                  | _ => Raise (Exception "TypeError" "fromisoformat: argument must be str")
                  end
                else Ok {| ld_messages := ld_messages st; ld_metadata := md;
                           ld_created_at := None |}
            | None => Ok {| ld_messages := ld_messages st; ld_metadata := md;
                            ld_created_at := None |}
            end
          else Ok {| ld_messages := ld_messages st ++ [d]; ld_metadata := ld_metadata st;
                     ld_created_at := ld_created_at st |}
      | _ => Raise (Exception "AttributeError" "object has no attribute 'get'")
      end
  end.

Fixpoint load_lines (st : load_state) (ls : list line) : outcome load_state :=
  match ls with
  | [] => Ok st
  | l :: rest =>
      match load_line st l with
      | Ok st' => load_lines st' rest
      | Raise e => Raise e
      end
  end.

(** [SessionManager._load]: the session, if any, and what was logged. *)
Definition _load (now : datetime) (k : string) (m : SessionManager)
  : option Session * list log_record :=
  match sessions_dir m !! _get_session_path k with
  | None => (None, [])
  | Some ls =>
      match load_lines {| ld_messages := []; ld_metadata := PDict [];
                          ld_created_at := None |} ls with
      | Ok st =>
          (Some {| key := k; messages := ld_messages st;
                   created_at := default now (ld_created_at st);
                   updated_at := now;
                   metadata := ld_metadata st |}, [])
      | Raise e =>
          (None, [(WARNING, "Failed to load session " +:+ k +:+ ": " +:+ exn_str e)])
      end
  end.

(** [SessionManager.get_or_create]. *)
Definition get_or_create (now : datetime) (k : string) (m : SessionManager)
  : Session * SessionManager * list log_record :=
  match _cache m !! k with
  | Some s => (s, m, [])
  | None =>
      let (loaded, logged) := _load now k m in
      let s := default (new_session now k) loaded in
      (s, with_cache (<[k := s]> (_cache m)) m, logged)
  end.

Definition metadata_line (s : Session) : pyval :=
  PDict [("_type", PStr "metadata");
         ("created_at", PStr (isoformat (created_at s)));
         ("updated_at", PStr (isoformat (updated_at s)));
         ("metadata", metadata s)].

(** [SessionManager.save]: the file is rewritten whole, then the cache
    entry is set. *)
Definition save (s : Session) : M SessionManager unit :=
  fun m =>
    let path := _get_session_path (key s) in
    match open_error m path with
    | Some e => (Raise e, m)
    | None =>
        let ls := JsonLine (metadata_line s) :: map (fun msg => JsonLine (PDict msg)) (messages s) in
        (Ok tt, with_cache (<[key s := s]> (_cache m)) (with_files (<[path := ls]> (sessions_dir m)) m))
    end.

(** A restart: the files stay, the cache starts empty. *)
Definition restart (m : SessionManager) : SessionManager := with_cache ∅ m.

End SessionStore.

(** ** bus/events.py and bus/queue.py *)

Module Bus.

Record InboundMessage := {
  in_channel : string;
  in_sender_id : string;
  in_chat_id : string;
  in_content : string;
  in_timestamp : datetime;
  in_media : list string;
  in_metadata : pyval
}.

(** [InboundMessage.session_key]. *)
Definition session_key (msg : InboundMessage) : string :=
  in_channel msg +:+ ":" +:+ in_chat_id msg.

Record OutboundMessage := {
  out_channel : string;
  out_chat_id : string;
  out_content : string;
  out_reply_to : option string;
  out_media : list string;
  out_metadata : pyval
}.

(** [OutboundMessage(channel=.., chat_id=.., content=..)] with the
    defaults of the other fields. *)
Definition outbound (channel chat_id content : string) : OutboundMessage :=
  {| out_channel := channel; out_chat_id := chat_id; out_content := content;
     out_reply_to := None; out_media := []; out_metadata := PDict [] |}.

Section Dispatch.

(** [C] is whatever the subscriber callbacks act on. *)
Context {C : Type}.

Definition callback : Type := OutboundMessage -> M C unit.

Record MessageBus := {
  inbound : list InboundMessage;
  outbound_queue : list OutboundMessage;
  _outbound_subscribers : gmap string (list callback);
  _running : bool
}.

(** The bus, what its callbacks act on, the log, and the record of every
    callback call made: the position of the callback in its list and the
    message it was given, newest first. *)
Record bus_world := {
  bw_bus : MessageBus;
  bw_channels : C;
  bw_log : list log_record;
  bw_called : list (nat * OutboundMessage)
}.

Definition set_bus (b : MessageBus) (w : bus_world) : bus_world :=
  {| bw_bus := b; bw_channels := bw_channels w; bw_log := bw_log w;
     bw_called := bw_called w |}.

Definition set_channels (c : C) (w : bus_world) : bus_world :=
  {| bw_bus := bw_bus w; bw_channels := c; bw_log := bw_log w;
     bw_called := bw_called w |}.

Definition log (l : level) (text : string) : M bus_world unit :=
  modify (fun w => {| bw_bus := bw_bus w; bw_channels := bw_channels w;
                      bw_log := (l, text) :: bw_log w; bw_called := bw_called w |}).

Definition note_called (i : nat) (msg : OutboundMessage) : M bus_world unit :=
  modify (fun w => {| bw_bus := bw_bus w; bw_channels := bw_channels w;
                      bw_log := bw_log w; bw_called := (i, msg) :: bw_called w |}).

(** [MessageBus.publish_inbound], [publish_outbound]: the queues have no
    bound, so [put] returns at once. *)
Definition publish_inbound (msg : InboundMessage) (b : MessageBus) : MessageBus :=
  {| inbound := inbound b ++ [msg]; outbound_queue := outbound_queue b;
     _outbound_subscribers := _outbound_subscribers b; _running := _running b |}.

Definition publish_outbound (msg : OutboundMessage) (b : MessageBus) : MessageBus :=
  {| inbound := inbound b; outbound_queue := outbound_queue b ++ [msg];
     _outbound_subscribers := _outbound_subscribers b; _running := _running b |}.

(** [MessageBus.subscribe_outbound]. *)
Definition subscribe_outbound (channel : string) (cb : callback) (b : MessageBus)
  : MessageBus :=
  {| inbound := inbound b; outbound_queue := outbound_queue b;
     _outbound_subscribers :=
       <[channel := default [] (_outbound_subscribers b !! channel) ++ [cb]]>
         (_outbound_subscribers b);
     _running := _running b |}.

(** The [for callback in subscribers] loop of [dispatch_outbound]. *)
Fixpoint call_subscribers (i : nat) (subscribers : list callback) (msg : OutboundMessage)
  : M bus_world unit :=
  match subscribers with
  | [] => ret tt
  | cb :: rest =>
      (try_except
         (note_called i msg ;;;
          zoom bw_channels set_channels (cb msg))
         (fun e => log ERROR ("Error dispatching to " +:+ out_channel msg +:+ ": "
                              +:+ exn_str e)) ;;;
       call_subscribers (S i) rest msg)%py
  end.

(** What [dispatch_outbound] does with one message it has pulled. *)
Definition dispatch_message (msg : OutboundMessage) : M bus_world unit :=
  (w <- get ;;
   let subscribers := default [] (_outbound_subscribers (bw_bus w) !! out_channel msg) in
   call_subscribers 0 subscribers msg)%py.

(** One turn of the [while self._running] loop: [wait_for] hands over
    the oldest queued message, or times out on an empty queue and the
    loop goes round. *)
Definition dispatch_turn : M bus_world unit :=
  (w <- get ;;
   match outbound_queue (bw_bus w) with
   | [] => ret tt
   | msg :: rest =>
       modify (fun w => set_bus {| inbound := inbound (bw_bus w); outbound_queue := rest;
                                   _outbound_subscribers := _outbound_subscribers (bw_bus w);
                                   _running := _running (bw_bus w) |} w) ;;;
       dispatch_message msg
   end)%py.

(** [MessageBus.dispatch_outbound], for [turns] turns of its loop. *)
Fixpoint dispatch_turns (turns : nat) : M bus_world unit :=
  match turns with
  | O => ret tt
  | S n =>
      (w <- get ;;
       if _running (bw_bus w) then (dispatch_turn ;;; dispatch_turns n) else ret tt)%py
  end.

Definition dispatch_outbound (turns : nat) : M bus_world unit :=
  (modify (fun w => set_bus {| inbound := inbound (bw_bus w);
                               outbound_queue := outbound_queue (bw_bus w);
                               _outbound_subscribers := _outbound_subscribers (bw_bus w);
                               _running := true |} w) ;;;
   dispatch_turns turns)%py.

(** The sibling dispatcher, [ChannelManager._dispatch_outbound] of
    channels/manager.py, for one message: one channel per name, and a
    warning when the name is unknown. *)
Definition channel_manager_dispatch (channels : gmap string callback)
    (msg : OutboundMessage) : M bus_world unit :=
  match channels !! out_channel msg with
  | Some send =>
      try_except
        (zoom bw_channels set_channels (send msg))
        (fun e => log ERROR ("Error sending to " +:+ out_channel msg +:+ ": " +:+ exn_str e))
  | None => log WARNING ("Unknown channel: " +:+ out_channel msg)
  end.

End Dispatch.

Arguments MessageBus : clear implicits.
Arguments bus_world : clear implicits.
Arguments callback : clear implicits.

End Bus.

(** ** providers/base.py *)

Module Provider.

Record ToolCallRequest := {
  tc_id : string;
  tc_name : string;
  tc_arguments : pyval
}.

Record LLMResponse := {
  content : option string;
  tool_calls : list ToolCallRequest;
  finish_reason : string;
  reasoning_content : option string
}.

(** [LLMResponse.has_tool_calls]. *)
Definition has_tool_calls (r : LLMResponse) : bool :=
  (0 <? length (tool_calls r))%nat.

(** The inference capability.  [chat n messages] is what the [n+1]-th
    call of the run answers to [messages]: a response, or a raise. *)
Record LLMProvider := {
  chat : nat -> list pydict -> outcome LLMResponse
}.

End Provider.
Export Provider.

(** ** agent/memory.py *)

Module Memory.

Record MemoryStore := {
  (** MEMORY.md, when the file exists *)
  memory_file : option string;
  (** HISTORY.md; an absent file reads as empty *)
  history_file : string;
  (** the errors, if any, that creating the directory, reading MEMORY.md,
      writing MEMORY.md and appending to HISTORY.md raise *)
  dir_error : option exn;
  read_error : option exn;
  write_error : option exn;
  append_error : option exn
}.

Definition fail_if {S} (e : option exn) : M S unit :=
  match e with
  | Some err => raise err
  | None => ret tt
  end.

(** [MemoryStore(workspace)]: [ensure_dir] may fail. *)
Definition open_store : M MemoryStore unit :=
  (m <- get ;; fail_if (dir_error m))%py.

(** [MemoryStore.read_long_term]. *)
Definition read_long_term : M MemoryStore string :=
  (m <- get ;;
   match memory_file m with
   | Some text => (fail_if (read_error m) ;;; ret text)
   | None => ret EmptyString
   end)%py.

(** [MemoryStore.write_long_term]. *)
Definition write_long_term (text : string) : M MemoryStore unit :=
  (m <- get ;;
   fail_if (write_error m) ;;;
   modify (fun m => {| memory_file := Some text; history_file := history_file m;
                       dir_error := dir_error m; read_error := read_error m;
                       write_error := write_error m; append_error := append_error m |}))%py.

(** [MemoryStore.append_history]. *)
Definition append_history (entry : string) : M MemoryStore unit :=
  (m <- get ;;
   fail_if (append_error m) ;;;
   modify (fun m => {| memory_file := memory_file m;
                       history_file := history_file m +:+ PyStr.rstrip entry
                                       +:+ PyStr.nl +:+ PyStr.nl;
                       dir_error := dir_error m; read_error := read_error m;
                       write_error := write_error m; append_error := append_error m |}))%py.

End Memory.
Export Memory.

(** ** agent/context.py, agent/loop.py *)

Module Agent.
Import Registry SessionStore Bus.

Section WithToolState.

Context {T : Type}.

(** A live background task: what [spawn] handed to [_run_subagent]. *)
Record bg_task := {
  bt_task : string;
  bt_label : string;
  bt_origin : string * string
}.

(** Everything the loop and the delegates read and change. *)
Record world := World {
  w_tools : tool_env T;
  (** the message lists handed to [provider.chat], newest first *)
  w_chats : list (list pydict);
  (** the log, newest first *)
  w_log : list log_record;
  (** what [datetime.now()] reads *)
  w_clock : datetime;
  w_sessions : SessionManager;
  w_memory : MemoryStore;
  (** the channel and chat the message, spawn and cron tools answer to *)
  w_context : option (string * string);
  (** the two queues of the bus *)
  w_inbound : list InboundMessage;
  w_outbound : list OutboundMessage;
  (** the tasks [asyncio.create_task] has scheduled and not yet run, oldest first *)
  w_scheduled : list (string * bg_task);
  (** [SubagentManager._running_tasks] *)
  w_running_tasks : gmap string bg_task
}.

Definition set_tools (x : tool_env T) (w : world) : world :=
  World x (w_chats w) (w_log w) (w_clock w) (w_sessions w) (w_memory w) (w_context w) (w_inbound w) (w_outbound w) (w_scheduled w) (w_running_tasks w).
Definition set_chats (x : list (list pydict)) (w : world) : world :=
  World (w_tools w) x (w_log w) (w_clock w) (w_sessions w) (w_memory w) (w_context w) (w_inbound w) (w_outbound w) (w_scheduled w) (w_running_tasks w).
Definition set_log (x : list log_record) (w : world) : world :=
  World (w_tools w) (w_chats w) x (w_clock w) (w_sessions w) (w_memory w) (w_context w) (w_inbound w) (w_outbound w) (w_scheduled w) (w_running_tasks w).
Definition set_clock (x : datetime) (w : world) : world :=
  World (w_tools w) (w_chats w) (w_log w) x (w_sessions w) (w_memory w) (w_context w) (w_inbound w) (w_outbound w) (w_scheduled w) (w_running_tasks w).
Definition set_sessions (x : SessionManager) (w : world) : world :=
  World (w_tools w) (w_chats w) (w_log w) (w_clock w) x (w_memory w) (w_context w) (w_inbound w) (w_outbound w) (w_scheduled w) (w_running_tasks w).
Definition set_memory (x : MemoryStore) (w : world) : world :=
  World (w_tools w) (w_chats w) (w_log w) (w_clock w) (w_sessions w) x (w_context w) (w_inbound w) (w_outbound w) (w_scheduled w) (w_running_tasks w).
Definition set_context (x : option (string * string)) (w : world) : world :=
  World (w_tools w) (w_chats w) (w_log w) (w_clock w) (w_sessions w) (w_memory w) x (w_inbound w) (w_outbound w) (w_scheduled w) (w_running_tasks w).
Definition set_inbound (x : list InboundMessage) (w : world) : world :=
  World (w_tools w) (w_chats w) (w_log w) (w_clock w) (w_sessions w) (w_memory w) (w_context w) x (w_outbound w) (w_scheduled w) (w_running_tasks w).
Definition set_outbound (x : list OutboundMessage) (w : world) : world :=
  World (w_tools w) (w_chats w) (w_log w) (w_clock w) (w_sessions w) (w_memory w) (w_context w) (w_inbound w) x (w_scheduled w) (w_running_tasks w).
Definition set_scheduled (x : list (string * bg_task)) (w : world) : world :=
  World (w_tools w) (w_chats w) (w_log w) (w_clock w) (w_sessions w) (w_memory w) (w_context w) (w_inbound w) (w_outbound w) x (w_running_tasks w).
Definition set_running_tasks (x : gmap string bg_task) (w : world) : world :=
  World (w_tools w) (w_chats w) (w_log w) (w_clock w) (w_sessions w) (w_memory w) (w_context w) (w_inbound w) (w_outbound w) (w_scheduled w) x.

Definition logger (l : level) (text : string) : M world unit :=
  modify (fun w => set_log ((l, text) :: w_log w) w).

Definition now : M world datetime := (w <- get ;; ret (w_clock w))%py.

(** The number of [provider.chat] calls made so far. *)
Definition chat_count (w : world) : nat := length (w_chats w).

(** [AgentLoop]: what the constructor stores.  [build_system_prompt]
    and [build_images] stand for the prompt and attachment rendering of
    agent/context.py, [json_loads] for [json.loads]. *)
Record AgentLoop := {
  provider : LLMProvider;
  max_iterations : Z;
  memory_window : Z;
  tools : ToolRegistry T;
  build_system_prompt : MemoryStore -> datetime -> string;
  build_images : list string -> list pyval;
  json_loads : string -> outcome pyval
}.

(** [await self.provider.chat(messages=..)]. *)
Definition provider_chat (p : LLMProvider) (msgs : list pydict) : M world LLMResponse :=
  fun w => (chat p (chat_count w) msgs, set_chats (msgs :: w_chats w) w).

(** *** agent/context.py *)

(** [ContextBuilder._build_user_content]. *)
Definition _build_user_content (al : AgentLoop) (text : string) (media : list string)
  : pyval :=
  match media with
  | [] => PStr text
  | _ =>
      match build_images al media with
      | [] => PStr text
      | images => PList (images ++ [PDict [("type", PStr "text"); ("text", PStr text)]])
      end
  end.

(** [ContextBuilder.build_messages]. *)
Definition build_messages (al : AgentLoop) (history : list pydict) (current_message : string)
    (media : list string) (channel chat_id : string) : M world (list pydict) :=
  (w <- get ;;
   let session_info :=
     if negb (String.eqb channel EmptyString) && negb (String.eqb chat_id EmptyString)
     then PyStr.nl +:+ PyStr.nl +:+ "## Current Session" +:+ PyStr.nl
          +:+ "Channel: " +:+ channel +:+ PyStr.nl +:+ "Chat ID: " +:+ chat_id
     else EmptyString in
   let system_prompt := build_system_prompt al (w_memory w) (w_clock w) +:+ session_info in
   ret ([[("role", PStr "system"); ("content", PStr system_prompt)]]
        ++ history
        ++ [[("role", PStr "user");
             ("content", _build_user_content al current_message media)]]))%py.

(** [ContextBuilder.add_tool_result]. *)
Definition add_tool_result (msgs : list pydict) (tool_call_id tool_name result : string)
  : list pydict :=
  msgs ++ [[("role", PStr "tool"); ("tool_call_id", PStr tool_call_id);
            ("name", PStr tool_name); ("content", PStr result)]].

(** [ContextBuilder.add_assistant_message]. *)
Definition add_assistant_message (msgs : list pydict) (content : option string)
    (tool_calls : list pyval) (reasoning_content : option string) : list pydict :=
  let text := default EmptyString content in
  msgs ++ [[("role", PStr "assistant"); ("content", PStr text)]
           ++ (match tool_calls with [] => [] | _ => [("tool_calls", PList tool_calls)] end)
           ++ (match reasoning_content with
               | Some r => if String.eqb r EmptyString then []
                           else [("reasoning_content", PStr r)]
               | None => []
               end)].

(** *** The ReAct loop of [_process_message] *)

Definition tool_call_dict (tc : ToolCallRequest) : pyval :=
  PDict [("id", PStr (tc_id tc)); ("type", PStr "function");
         ("function", PDict [("name", PStr (tc_name tc));
                             ("arguments", PStr (PyVal.json_dumps (tc_arguments tc)))])].

Definition reflect_message : pydict :=
  [("role", PStr "user"); ("content", PStr "Reflect on the results and decide next steps.")].

(** The local variables of the loop. *)
Record loop_state := {
  ls_messages : list pydict;
  ls_iteration : Z;
  ls_final_content : option string;
  ls_tools_used : list string
}.

(** [await self.tools.execute(name, arguments)]. *)
Definition tools_execute (al : AgentLoop) (name : string) (arguments : pyval)
  : M world string :=
  zoom w_tools set_tools (execute (tools al) name arguments).

(** The [for tool_call in response.tool_calls] loop.  [track] is on in
    [_process_message], which keeps [tools_used], and off in
    [_process_system_message], which does not. *)
Fixpoint exec_tool_calls (al : AgentLoop) (track : bool) (calls : list ToolCallRequest)
    (st : loop_state) : M world loop_state :=
  match calls with
  | [] => ret st
  | tc :: rest =>
      (logger INFO ("Tool call: " +:+ tc_name tc +:+ "("
                    +:+ PyStr.take 200 (PyVal.json_dumps (tc_arguments tc)) +:+ ")") ;;;
       result <- tools_execute al (tc_name tc) (tc_arguments tc) ;;
       exec_tool_calls al track rest
         {| ls_messages := add_tool_result (ls_messages st) (tc_id tc) (tc_name tc) result;
            ls_iteration := ls_iteration st;
            ls_final_content := ls_final_content st;
            ls_tools_used := if track then ls_tools_used st ++ [tc_name tc]
                             else ls_tools_used st |})%py
  end.

(** The branch taken when the response asks for tools. *)
Definition on_tool_calls (al : AgentLoop) (track : bool) (response : LLMResponse)
    (st : loop_state) : M world loop_state :=
  (st' <- exec_tool_calls al track (tool_calls response)
            {| ls_messages := add_assistant_message (ls_messages st) (content response)
                                (map tool_call_dict (tool_calls response))
                                (reasoning_content response);
               ls_iteration := ls_iteration st;
               ls_final_content := ls_final_content st;
               ls_tools_used := ls_tools_used st |} ;;
   ret {| ls_messages := ls_messages st' ++ [reflect_message];
          ls_iteration := ls_iteration st';
          ls_final_content := ls_final_content st';
          ls_tools_used := ls_tools_used st' |})%py.

(** [while iteration < self.max_iterations: ...].  [fuel] bounds the
    recursion; the test of the [while] is the one written here, and
    [Z.to_nat (max_iterations - iteration)] turns of fuel are never used
    up before it fails. *)
Fixpoint react_loop (al : AgentLoop) (track : bool) (fuel : nat) (st : loop_state)
  : M world loop_state :=
  if ls_iteration st <? max_iterations al then
    match fuel with
    | O => ret st
    | S fuel' =>
        let st1 := {| ls_messages := ls_messages st;
                      ls_iteration := ls_iteration st + 1;
                      ls_final_content := ls_final_content st;
                      ls_tools_used := ls_tools_used st |} in
        (response <- provider_chat (provider al) (ls_messages st1) ;;
         if has_tool_calls response then
           st2 <- on_tool_calls al track response st1 ;;
           react_loop al track fuel' st2
         else
           ret {| ls_messages := ls_messages st1;
                  ls_iteration := ls_iteration st1;
                  ls_final_content := content response;
                  ls_tools_used := ls_tools_used st1 |})%py
    end
  else ret st.

Definition initial_loop_state (msgs : list pydict) : loop_state :=
  {| ls_messages := msgs; ls_iteration := 0; ls_final_content := None;
     ls_tools_used := [] |}.

(** The loop as [_process_message] runs it, from [iteration = 0]. *)
Definition run_react_loop (al : AgentLoop) (track : bool) (msgs : list pydict)
  : M world loop_state :=
  react_loop al track (Z.to_nat (max_iterations al)) (initial_loop_state msgs).

(** *** Memory consolidation *)

(** [l[:stop]] for any integer [stop]. *)
Definition slice_until {A} (stop : Z) (l : list A) : list A :=
  let n := Z.of_nat (length l) in
  let i := if stop <? 0 then Z.max 0 (n + stop) else Z.min stop n in
  take (Z.to_nat i) l.

(** [str(v)] inside an f-string. *)
Definition str_of (v : pyval) : string :=
  match v with
  | PStr s => s
  | _ => PyVal.repr v
  end.

Fixpoint all_text (l : list pyval) : option (list string) :=
  match l with
  | [] => Some []
  | PStr s :: rest => match all_text rest with Some r => Some (s :: r) | None => None end
  | _ :: _ => None
  end.

(** [', '.join(m['tools_used'])]: [join] takes a list of text. *)
Definition join_tools (v : pyval) : outcome string :=
  match v with
  | PList l =>
      match all_text l with
      | Some names => Ok (PyStr.join ", " names)
      | None => Raise (Exception "TypeError" "sequence item: expected str instance")
      end
  | PDict d => Ok (PyStr.join ", " (PyVal.keys d))
  | PStr s => Ok (PyStr.join ", " (map (fun a => String a EmptyString) (list_ascii_of_string s)))
  | _ => Raise (Exception "TypeError" "can only join an iterable")
  end.

(** [m.get('timestamp', '?')[:16]], as the f-string prints it. *)
Definition timestamp_prefix (m : pydict) : outcome string :=
  match PyVal.lookup "timestamp" m with
  | None => Ok "?"
  | Some (PStr s) => Ok (PyStr.take 16 s)
  | Some (PList l) => Ok (PyVal.repr (PList (firstn 16 l)))
  | Some _ => Raise (Exception "TypeError" "object is not subscriptable")
  end.

(** [m['role'].upper()]. *)
Definition role_upper (m : pydict) : outcome string :=
  match getitem "role" m with
  | Ok (PStr r) => Ok (PyStr.upper r)
  | Ok _ => Raise (Exception "AttributeError" "object has no attribute 'upper'")
  | Raise e => Raise e
  end.

(** One turn of the [for m in old_messages] loop: the line, or [None]
    when the message has no content and is skipped. *)
Definition render_line (m : pydict) : outcome (option string) :=
  match PyVal.lookup "content" m with
  | None => Ok None
  | Some c =>
      if negb (PyVal.truthy c) then Ok None
      else
        match (match PyVal.lookup "tools_used" m with
               | Some tu =>
                   if PyVal.truthy tu then
                     match join_tools tu with
                     | Ok names => Ok (" [tools: " +:+ names +:+ "]")
                     | Raise e => Raise e
                     end
                   else Ok EmptyString
               | None => Ok EmptyString
               end) with
        | Raise e => Raise e
        | Ok tools_text =>
            match timestamp_prefix m with
            | Raise e => Raise e
            | Ok ts =>
                match role_upper m with
                | Raise e => Raise e
                | Ok role =>
                    Ok (Some ("[" +:+ ts +:+ "] " +:+ role +:+ tools_text +:+ ": "
                              +:+ str_of c))
                end
            end
        end
  end.

Fixpoint render_lines (ms : list pydict) : outcome (list string) :=
  match ms with
  | [] => Ok []
  | m :: rest =>
      match render_line m with
      | Raise e => Raise e
      | Ok l =>
          match render_lines rest with
          | Raise e => Raise e
          | Ok ls => Ok (match l with Some x => x :: ls | None => ls end)
          end
      end
  end.

Definition fence : string := "```".

Definition consolidation_prompt (current_memory conversation : string) : string :=
  "You are a memory consolidation agent. Process this conversation and return a JSON object with exactly two keys:"
  +:+ PyStr.nl +:+ PyStr.nl
  +:+ "1. " +:+ PyVal.json_str "history_entry"
  +:+ ": A paragraph (2-5 sentences) summarizing the key events/decisions/topics. Start with a timestamp like [YYYY-MM-DD HH:MM]. Include enough detail to be useful when found by grep search later."
  +:+ PyStr.nl +:+ PyStr.nl
  +:+ "2. " +:+ PyVal.json_str "memory_update"
  +:+ ": The updated long-term memory content. Add any new facts: user location, preferences, personal info, habits, project context, technical decisions, tools/services used. If nothing new, return the existing content unchanged."
  +:+ PyStr.nl +:+ PyStr.nl
  +:+ "## Current Long-term Memory" +:+ PyStr.nl
  +:+ (if String.eqb current_memory EmptyString then "(empty)" else current_memory)
  +:+ PyStr.nl +:+ PyStr.nl
  +:+ "## Conversation to Process" +:+ PyStr.nl
  +:+ conversation +:+ PyStr.nl +:+ PyStr.nl
  +:+ "Respond with ONLY valid JSON, no markdown fences.".

Definition consolidation_messages (prompt : string) : list pydict :=
  [[("role", PStr "system");
    ("content", PStr "You are a memory consolidation agent. Respond only with valid JSON.")];
   [("role", PStr "user"); ("content", PStr prompt)]].

(** The text handed to [json.loads]. *)
Definition clean_response (content : option string) : string :=
  let text := PyStr.strip (default EmptyString content) in
  if PyStr.startswith text fence
  then PyStr.strip (PyStr.rsplit_head fence (PyStr.after_first PyStr.newline text))
  else text.

(** [entry.rstrip()], [write_text(update)]: text only. *)
Definition text_of (what : string) (v : pyval) : M world string :=
  match v with
  | PStr s => ret s
  | _ => raise (Exception "TypeError" (what +:+ " must be str"))
  end.

Definition with_messages (ms : list pydict) (s : Session) : Session :=
  {| key := key s; messages := ms; created_at := created_at s;
     updated_at := updated_at s; metadata := metadata s |}.

(** The session object that a method call works on travels with the
    world: an assignment to [session.messages] made before a raise stays
    made. *)
Definition on_world {A} (c : M world A) : M (Session * world) A :=
  zoom snd (fun w sw => (fst sw, w)) c.

Definition the_session : M (Session * world) Session :=
  (sw <- get ;; ret (fst sw))%py.

Definition assign_messages (ms : list pydict) : M (Session * world) unit :=
  modify (fun sw => (with_messages ms (fst sw), snd sw)).

Definition text_of' (what : string) (v : pyval) : M (Session * world) string :=
  on_world (text_of what v).

(** [_consolidate_memory] up to its [try]: [None] when it returns early,
    else [keep_count], the prompt and the memory text read. *)
Definition consolidation_setup (al : AgentLoop) (archive_all : bool)
  : M (Session * world) (option (Z * string * string)) :=
  (session <- the_session ;;
   match messages session with
   | [] => ret None
   | _ =>
       on_world (zoom w_memory set_memory open_store) ;;;
       let keep_count :=
         if archive_all then 0
         else Z.min 10 (Z.max 2 (memory_window al / 2)) in
       let old_messages :=
         if archive_all then messages session
         else slice_until (- keep_count) (messages session) in
       match old_messages with
       | [] => ret None
       | _ =>
           on_world (logger INFO ("Memory consolidation started: "
                        +:+ pretty (length (messages session)) +:+ " messages, archiving "
                        +:+ pretty (length old_messages) +:+ ", keeping "
                        +:+ pretty keep_count)) ;;;
           lines <- lift_outcome (render_lines old_messages) ;;
           let conversation := PyStr.join PyStr.nl lines in
           current_memory <- on_world (zoom w_memory set_memory read_long_term) ;;
           ret (Some (keep_count, consolidation_prompt current_memory conversation,
                      current_memory))
       end
   end)%py.

(** The first part of the [try] block: the inference call, the parse of
    its answer, and the two memory files. *)
Definition summarise (al : AgentLoop) (prompt current_memory : string)
  : M (Session * world) unit :=
  (response <- on_world (provider_chat (provider al) (consolidation_messages prompt)) ;;
   result <- lift_outcome (json_loads al (clean_response (content response))) ;;
   entry <- lift_outcome (data_get "history_entry" result) ;;
   (match entry with
    | Some e => if PyVal.truthy e
                then (text <- text_of' "entry" e ;;
                      on_world (zoom w_memory set_memory (append_history text)))
                else ret tt
    | None => ret tt
    end) ;;;
   update <- lift_outcome (data_get "memory_update" result) ;;
   match update with
   | Some u => if PyVal.truthy u && negb (PyVal.eqb u (PStr current_memory))
               then (text <- text_of' "data" u ;;
                     on_world (zoom w_memory set_memory (write_long_term text)))
               else ret tt
   | None => ret tt
   end)%py.

(** The rest of the [try] block: the session is cut to its tail, then
    saved. *)
Definition trim_and_save (keep_count : Z) : M (Session * world) unit :=
  (session <- the_session ;;
   assign_messages (if keep_count =? 0 then []
                    else slice_from (- keep_count) (messages session)) ;;;
   trimmed <- the_session ;;
   on_world (zoom w_sessions set_sessions (save trimmed)) ;;;
   on_world (logger INFO ("Memory consolidation done, session trimmed to "
                          +:+ pretty (length (messages trimmed)) +:+ " messages")))%py.

Definition consolidation_failed (e : exn) : log_record :=
  (ERROR, "Memory consolidation failed: " +:+ exn_str e).

(** [AgentLoop._consolidate_memory(session, archive_all)]. *)
Definition _consolidate_memory (al : AgentLoop) (archive_all : bool)
  : M (Session * world) unit :=
  (setup <- consolidation_setup al archive_all ;;
   match setup with
   | None => ret tt
   | Some (keep_count, prompt, current_memory) =>
       try_except
         (summarise al prompt current_memory ;;; trim_and_save keep_count)
         (fun e => on_world (logger (fst (consolidation_failed e))
                                    (snd (consolidation_failed e))))
   end)%py.

(** Call a method that works on the session object [s]; the caller gets
    the object back as the call left it. *)
Definition on_session {A} (s : Session) (c : M (Session * world) A) : M world (A * Session) :=
  fun w => match c (s, w) with
           | (Ok a, (s', w')) => (Ok (a, s'), w')
           | (Raise e, (_, w')) => (Raise e, w')
           end.

(** *** [_process_message] and [_process_system_message] *)

Definition preview (n : nat) (text : string) : string :=
  if (n <? String.length text)%nat then PyStr.take n text +:+ "..." else text.

(** [message_tool.set_context], [spawn_tool.set_context],
    [cron_tool.set_context]. *)
Definition set_tool_contexts (channel chat_id : string) : M world unit :=
  modify (set_context (Some (channel, chat_id))).

Definition sessions_get_or_create (k : string) : M world Session :=
  fun w =>
    let '(s, m, logged) := get_or_create (w_clock w) k (w_sessions w) in
    (Ok s, set_log (rev logged ++ w_log w) (set_sessions m w)).

Definition sessions_save (s : Session) : M world unit :=
  zoom w_sessions set_sessions (save s).

Definition new_session_text : string := "🐈 New session started. Memory consolidated.".

Definition help_text : string :=
  "🐈 nanobot commands:" +:+ PyStr.nl +:+ "/new — Start a new conversation"
  +:+ PyStr.nl +:+ "/help — Show available commands".

(** The origin carried by the chat id of a system message. *)
Definition parse_origin (chat_id : string) : string * string :=
  if PyStr.contains_char PyStr.colon chat_id then
    match PyStr.split_first PyStr.colon chat_id with
    | Some (origin_channel, origin_chat_id) => (origin_channel, origin_chat_id)
    | None => ("cli", chat_id)
    end
  else ("cli", chat_id).

(** [AgentLoop._process_system_message]. *)
Definition _process_system_message (al : AgentLoop) (msg : InboundMessage)
  : M world (option OutboundMessage) :=
  (logger INFO ("Processing system message from " +:+ in_sender_id msg) ;;;
   let (origin_channel, origin_chat_id) := parse_origin (in_chat_id msg) in
   let session_key := origin_channel +:+ ":" +:+ origin_chat_id in
   session <- sessions_get_or_create session_key ;;
   set_tool_contexts origin_channel origin_chat_id ;;;
   history <- lift_outcome (get_history default_max_messages session) ;;
   msgs <- build_messages al history (in_content msg) [] origin_channel origin_chat_id ;;
   st <- run_react_loop al false msgs ;;
   let final_content := default "Background task completed." (ls_final_content st) in
   t1 <- now ;;
   let session := add_message t1 "user"
                    (PStr ("[System: " +:+ in_sender_id msg +:+ "] " +:+ in_content msg))
                    [] session in
   t2 <- now ;;
   let session := add_message t2 "assistant" (PStr final_content) [] session in
   sessions_save session ;;;
   ret (Some (outbound origin_channel origin_chat_id final_content)))%py.

(** What the loop leaves in [final_content] when it set none. *)
Definition final_text (al : AgentLoop) (st : loop_state) : string :=
  match ls_final_content st with
  | Some text => text
  | None =>
      if max_iterations al <=? ls_iteration st
      then "Reached " +:+ pretty (max_iterations al) +:+ " iterations without completion."
      else "I've completed processing but have no response to give."
  end.

(** [AgentLoop._process_message]. *)
Definition _process_message (al : AgentLoop) (msg : InboundMessage)
    (session_key : option string) : M world (option OutboundMessage) :=
  if String.eqb (in_channel msg) "system" then _process_system_message al msg
  else
    (logger INFO ("Processing message from " +:+ in_channel msg +:+ ":" +:+ in_sender_id msg
                  +:+ ": " +:+ preview 80 (in_content msg)) ;;;
     let k := match session_key with
              | Some k' => if String.eqb k' EmptyString then Bus.session_key msg else k'
              | None => Bus.session_key msg
              end in
     session <- sessions_get_or_create k ;;
     let cmd := PyStr.lower (PyStr.strip (in_content msg)) in
     if String.eqb cmd "/new" then
       r <- on_session session (_consolidate_memory al true) ;;
       t <- now ;;
       sessions_save (clear t (snd r)) ;;;
       ret (Some (outbound (in_channel msg) (in_chat_id msg) new_session_text))
     else if String.eqb cmd "/help" then
       ret (Some (outbound (in_channel msg) (in_chat_id msg) help_text))
     else
       session <- (if memory_window al <? Z.of_nat (length (messages session))
                   then r <- on_session session (_consolidate_memory al false) ;; ret (snd r)
                   else ret session) ;;
       set_tool_contexts (in_channel msg) (in_chat_id msg) ;;;
       history <- lift_outcome (get_history default_max_messages session) ;;
       msgs <- build_messages al history (in_content msg) (in_media msg)
                              (in_channel msg) (in_chat_id msg) ;;
       st <- run_react_loop al true msgs ;;
       let final_content := final_text al st in
       logger INFO ("Response to " +:+ in_channel msg +:+ ":" +:+ in_sender_id msg
                    +:+ ": " +:+ preview 120 final_content) ;;;
       t1 <- now ;;
       let session := add_message t1 "user" (PStr (in_content msg)) [] session in
       t2 <- now ;;
       let session := add_message t2 "assistant" (PStr final_content)
                        [("tools_used",
                          match ls_tools_used st with
                          | [] => PNone
                          | used => PList (map PStr used)
                          end)] session in
       sessions_save session ;;;
       ret (Some {| out_channel := in_channel msg; out_chat_id := in_chat_id msg;
                    out_content := final_content; out_reply_to := None; out_media := [];
                    out_metadata := if PyVal.truthy (in_metadata msg) then in_metadata msg
                                    else PDict [] |}))%py.

(** One turn of [AgentLoop.run]: a message is pulled from the inbound
    queue (or the wait times out on an empty queue), processed, and the
    reply, or an apology when processing raised, is published. *)
Definition run_turn (al : AgentLoop) : M world unit :=
  (w <- get ;;
   match w_inbound w with
   | [] => ret tt
   | msg :: rest =>
       modify (set_inbound rest) ;;;
       try_except
         (response <- _process_message al msg None ;;
          match response with
          | Some r => modify (fun w => set_outbound (w_outbound w ++ [r]) w)
          | None => ret tt
          end)
         (fun e =>
            logger ERROR ("Error processing message: " +:+ exn_str e) ;;;
            modify (fun w => set_outbound
                               (w_outbound w ++ [outbound (in_channel msg) (in_chat_id msg)
                                   ("Sorry, I encountered an error: " +:+ exn_str e)]) w))
   end)%py.

End WithToolState.

Arguments world : clear implicits.
Arguments AgentLoop : clear implicits.

End Agent.

(** ** agent/subagent.py *)

Module Subagent.
Import Registry Bus Agent.

Section WithToolState.

Context {T : Type}.

(** [SubagentManager].  [sub_tools] is the registry [_run_subagent]
    builds for a delegate (file, shell and web tools; no message tool and
    no spawn tool); [build_subagent_prompt] is [_build_subagent_prompt]. *)
Record SubagentManager := {
  sub_provider : LLMProvider;
  sub_tools : ToolRegistry T;
  build_subagent_prompt : string -> datetime -> string
}.

Definition sub_max_iterations : Z := 15.



Definition announce_content (label task result status : string) : string :=
  let status_text := if String.eqb status "ok" then "completed successfully" else "failed" in
  "[Subagent '" +:+ label +:+ "' " +:+ status_text +:+ "]" +:+ PyStr.nl +:+ PyStr.nl
  +:+ "Task: " +:+ task +:+ PyStr.nl +:+ PyStr.nl
  +:+ "Result:" +:+ PyStr.nl +:+ result +:+ PyStr.nl +:+ PyStr.nl
  +:+ "Summarize this naturally for the user. Keep it brief (1-2 sentences). Do not mention technical details like "
  +:+ PyVal.json_str "subagent" +:+ " or task IDs.".

Definition announcement (now : datetime) (label task result : string)
    (origin : string * string) (status : string) : InboundMessage :=
  {| in_channel := "system"; in_sender_id := "subagent";
     in_chat_id := fst origin +:+ ":" +:+ snd origin;
     in_content := announce_content label task result status;
     in_timestamp := now; in_media := []; in_metadata := PDict [] |}.

(** [SubagentManager._announce_result]. *)
Definition _announce_result (task_id label task result : string)
    (origin : string * string) (status : string) : M (world T) unit :=
  (t <- now ;;
   modify (fun w => set_inbound
                      (w_inbound w ++ [announcement t label task result origin status]) w) ;;;
   logger DEBUG ("Subagent [" +:+ task_id +:+ "] announced result to "
                 +:+ fst origin +:+ ":" +:+ snd origin))%py.

Record sub_state := {
  ss_messages : list pydict;
  ss_iteration : Z;
  ss_final_result : option string
}.

(** The [for tool_call in response.tool_calls] loop of a delegate. *)
Fixpoint sub_tool_calls (mgr : SubagentManager) (task_id : string)
    (calls : list ToolCallRequest) (msgs : list pydict) : M (world T) (list pydict) :=
  match calls with
  | [] => ret msgs
  | tc :: rest =>
      (logger DEBUG ("Subagent [" +:+ task_id +:+ "] executing: " +:+ tc_name tc
                     +:+ " with arguments: " +:+ PyVal.json_dumps (tc_arguments tc)) ;;;
       result <- zoom w_tools set_tools
                   (execute (sub_tools mgr) (tc_name tc) (tc_arguments tc)) ;;
       sub_tool_calls mgr task_id rest
         (msgs ++ [[("role", PStr "tool"); ("tool_call_id", PStr (tc_id tc));
                    ("name", PStr (tc_name tc)); ("content", PStr result)]]))%py
  end.

(** The loop of a delegate: [while iteration < max_iterations]. *)
Fixpoint sub_loop (mgr : SubagentManager) (task_id : string) (fuel : nat) (st : sub_state)
  : M (world T) sub_state :=
  if ss_iteration st <? sub_max_iterations then
    match fuel with
    | O => ret st
    | S fuel' =>
        (response <- provider_chat (sub_provider mgr) (ss_messages st) ;;
         if has_tool_calls response then
           msgs <- sub_tool_calls mgr task_id (tool_calls response)
                     (ss_messages st
                      ++ [[("role", PStr "assistant");
                           ("content", PStr (default EmptyString (content response)));
                           ("tool_calls", PList (map tool_call_dict (tool_calls response)))]]) ;;
           sub_loop mgr task_id fuel'
             {| ss_messages := msgs; ss_iteration := ss_iteration st + 1;
                ss_final_result := ss_final_result st |}
         else
           ret {| ss_messages := ss_messages st; ss_iteration := ss_iteration st + 1;
                  ss_final_result := content response |})%py
    end
  else ret st.

(** The [try] block of [_run_subagent]. *)
Definition run_subagent_try (mgr : SubagentManager) (task_id task label : string)
    (origin : string * string) : M (world T) unit :=
  (t <- now ;;
   let system_prompt := build_subagent_prompt mgr task t in
   let msgs := [[("role", PStr "system"); ("content", PStr system_prompt)];
                [("role", PStr "user"); ("content", PStr task)]] in
   st <- sub_loop mgr task_id (Z.to_nat sub_max_iterations)
           {| ss_messages := msgs; ss_iteration := 0; ss_final_result := None |} ;;
   let final_result :=
     default "Task completed but no final response was generated." (ss_final_result st) in
   logger INFO ("Subagent [" +:+ task_id +:+ "] completed successfully") ;;;
   _announce_result task_id label task final_result origin "ok")%py.

(** [SubagentManager._run_subagent]. *)
Definition _run_subagent (mgr : SubagentManager) (task_id task label : string)
    (origin : string * string) : M (world T) unit :=
  (logger INFO ("Subagent [" +:+ task_id +:+ "] starting task: " +:+ label) ;;;
   try_except
     (run_subagent_try mgr task_id task label origin)
     (fun e =>
        let error_msg := "Error: " +:+ exn_str e in
        logger ERROR ("Subagent [" +:+ task_id +:+ "] failed: " +:+ exn_str e) ;;;
        _announce_result task_id label task error_msg origin "error"))%py.

(** The event loop runs one scheduled task to its end, then calls its
    done-callback, [self._running_tasks.pop(task_id, None)]; what the
    task raised, if anything, stays in the task object. *)
Definition run_task (mgr : SubagentManager) (entry : string * bg_task) : M (world T) unit :=
  fun w =>
    let (task_id, bg) := entry in
    let (_, w') := _run_subagent mgr task_id (bt_task bg) (bt_label bg) (bt_origin bg) w in
    (Ok tt, set_running_tasks (delete task_id (w_running_tasks w')) w').

(** The event loop takes the oldest scheduled task. *)
Definition run_next_task (mgr : SubagentManager) : M (world T) unit :=
  (w <- get ;;
   match w_scheduled w with
   | [] => ret tt
   | entry :: rest => modify (set_scheduled rest) ;;; run_task mgr entry
   end)%py.


End WithToolState.

Arguments SubagentManager : clear implicits.

End Subagent.

(** ** Vocabulary for the properties *)

Module Observe.
Import Registry SessionStore Bus Agent.

(** [c] makes at most [n] inference calls, and never takes one back,
    whatever the state and whether it returns or raises; [count] reads
    the number of calls made so far off the state. *)
Definition calls_at_most {S A} (count : S -> nat) (n : nat) (c : M S A) : Prop :=
  forall s, (count s <= count (snd (c s)) <= count s + n)%nat.

Definition chats2 {T} (sw : Session * world T) : nat := chat_count (snd sw).

(** The fields of the world that neither a tool call nor an inference
    call nor a log line touches. *)
Definition frame {T} (w w' : world T) : Prop :=
  w_clock w' = w_clock w /\ w_sessions w' = w_sessions w /\
  w_memory w' = w_memory w /\ w_context w' = w_context w /\
  w_inbound w' = w_inbound w /\ w_outbound w' = w_outbound w /\
  w_scheduled w' = w_scheduled w /\ w_running_tasks w' = w_running_tasks w.

(** The loop variables after [iteration += 1]. *)
Definition next_turn (st : loop_state) : loop_state :=
  {| ls_messages := ls_messages st; ls_iteration := ls_iteration st + 1;
     ls_final_content := ls_final_content st; ls_tools_used := ls_tools_used st |}.

(** [c] leaves the session object as it found it. *)
Definition keeps_session {T A} (c : M (Session * world T) A) : Prop :=
  forall sw, fst (snd (c sw)) = fst sw.

(** The tail [_consolidate_memory] cuts the session to. *)
Definition retained (keep_count : Z) (s : Session) : list pydict :=
  if keep_count =? 0 then [] else slice_from (- keep_count) (messages s).


(** The last [n] elements of a list. *)
Definition last_n {A} (n : nat) (l : list A) : list A := drop (length l - n) l.

(** An entry of [get_history] beside the stored message it comes from. *)
Definition stripped (m e : pydict) : Prop :=
  exists r c, PyVal.lookup "role" m = Some r /\ PyVal.lookup "content" m = Some c /\
              e = [("role", r); ("content", c)].




(** The tool state in which a tool call is made that comes after the
    calls [earlier] of the same response: [earlier], run in order through
    the registry from the state [env] the response found. *)
Fixpoint run_calls {T} (reg : ToolRegistry T) (earlier : list ToolCallRequest)
    (env : tool_env T) : tool_env T :=
  match earlier with
  | [] => env
  | tc :: rest =>
      run_calls reg rest (snd (execute reg (tc_name tc) (tc_arguments tc) env))
  end.

End Observe.

(** ** Concrete inputs *)

Module Examples.
Import Registry Filesystem SessionStore Bus Agent Subagent.

(** A disk of plain files, by absolute path: no directories to list, no
    links, and every path already in resolved form. *)
#[export] Instance flat_disk : PathLib (gmap string string) := {|
  resolve := fun p _ => Ok p;
  path_exists := fun p fs => bool_decide (is_Some (fs !! p));
  is_file := fun p fs => bool_decide (is_Some (fs !! p));
  is_dir := fun _ _ => false;
  read_text := fun p fs =>
    match fs !! p with
    | Some text => (Ok text, fs)
    | None => (Raise (Exception "FileNotFoundError" p), fs)
    end;
  write_text := fun p text fs => (Ok tt, <[p := text]> fs);
  mkdir_parent := fun _ => ret tt;
  iterdir_sorted := fun p => raise (Exception "NotADirectoryError" p)
|}.

Definition sandbox : string := "/ws".

Definition disk0 : gmap string string :=
  {[ "/ws/notes.txt" := "hello";
     "/ws-evil/secret.txt" := "TOP SECRET";
     "/etc/passwd" := "root:x:0:0" ]}.

(** The four file tools, registered as [_register_default_tools] does
    with [restrict_to_workspace] on. *)
Definition sandboxed_tools : ToolRegistry (gmap string string) :=
  register (ListDirTool (Some sandbox))
    (register (EditFileTool (Some sandbox))
       (register (WriteFileTool (Some sandbox))
          (register (ReadFileTool (Some sandbox)) ∅))).

Definition env0 : tool_env (gmap string string) :=
  {| te_state := disk0; te_invoked := [] |}.

Definition t0 : datetime := DT 2026 2 7 9 30 15 250000.
Definition t1 : datetime := DT 2026 2 8 18 0 0 0.

Definition empty_manager : SessionManager :=
  {| sessions_dir := ∅; open_error := fun _ => None; _cache := ∅ |}.

(** A store whose disk takes no more writes. *)
Definition full_disk_manager : SessionManager :=
  {| sessions_dir := ∅;
     open_error := fun _ => Some (Exception "OSError" "No space left on device");
     _cache := ∅ |}.

Definition empty_memory : MemoryStore :=
  {| memory_file := None; history_file := EmptyString; dir_error := None;
     read_error := None; write_error := None; append_error := None |}.

Definition world0 : world (gmap string string) :=
  {| w_tools := env0; w_chats := []; w_log := []; w_clock := t0;
     w_sessions := empty_manager; w_memory := empty_memory; w_context := None;
     w_inbound := []; w_outbound := []; w_scheduled := []; w_running_tasks := ∅ |}.

Definition world_full_disk : world (gmap string string) :=
  set_sessions full_disk_manager world0.

(** A session with one turn, last touched at [t0]. *)
Definition one_turn_session : Session :=
  add_message t0 "user" (PStr "hello") [] (new_session t0 "telegram:42").

(** A session with three turns. *)
Definition three_turn_session : Session :=
  add_message t0 "user" (PStr "and tea?") []
    (add_message t0 "assistant" (PStr "hi") [("tools_used", PNone)] one_turn_session).

Definition text_reply (text : string) : LLMResponse :=
  {| content := Some text; tool_calls := []; finish_reason := "stop";
     reasoning_content := None |}.






(** A model that answers [text] to everything. *)
Definition answers (text : string) : LLMProvider :=
  {| chat := fun _ _ => Ok (text_reply text) |}.

(** A model whose every call fails. *)
Definition unreachable : LLMProvider :=
  {| chat := fun _ _ => Raise (Exception "ConnectionError" "model unreachable") |}.

Definition summary : pyval :=
  PDict [("history_entry", PStr "[2026-02-07 09:30] Greetings were exchanged.");
         ("memory_update", PStr "The user drinks tea.")].

(** [json.loads] on the one text the examples hand it; any other text is
    refused. *)
Definition loads_summary (text : string) : outcome pyval :=
  if String.eqb text (PyVal.json_dumps summary) then Ok summary
  else Raise (Exception "JSONDecodeError" "Expecting value").

Definition agent (p : LLMProvider) (ceiling : Z) : AgentLoop (gmap string string) :=
  {| provider := p; max_iterations := ceiling; memory_window := 50;
     tools := sandboxed_tools;
     build_system_prompt := fun _ _ => "You are nanobot.";
     build_images := fun _ => [];
     json_loads := loads_summary |}.



Definition telegram_send : callback (list string) :=
  fun msg => modify (fun sent => sent ++ [out_content msg]).

Definition telegram_only : bus_world (list string) :=
  {| bw_bus := {| inbound := [];
                  outbound_queue := [outbound "matrix" "room-1" "hi"];
                  _outbound_subscribers := {[ "telegram" := [telegram_send] ]};
                  _running := true |};
     bw_channels := []; bw_log := []; bw_called := [] |}.

End Examples.

(** * Properties *)

(** ** The monad *)

Module MonadFacts.

Lemma bind_ok {S A B} (c : M S A) (k : A -> M S B) s a s' :
  c s = (Ok a, s') -> bind c k s = k a s'.
Proof. intros H. unfold bind. now rewrite H. Qed.

Lemma bind_raise {S A B} (c : M S A) (k : A -> M S B) s e s' :
  c s = (Raise e, s') -> bind c k s = (Raise e, s').
Proof. intros H. unfold bind. now rewrite H. Qed.

Lemma try_except_ok {S A} (c : M S A) h s a s' :
  c s = (Ok a, s') -> try_except c h s = (Ok a, s').
Proof. intros H. unfold try_except. now rewrite H. Qed.

Lemma try_except_raise {S A} (c : M S A) h s e s' :
  c s = (Raise e, s') -> try_except c h s = h e s'.
Proof. intros H. unfold try_except. now rewrite H. Qed.

Lemma zoom_eq {S T A} (proj : S -> T) (upd : T -> S -> S) (c : M T A) s :
  zoom proj upd c s = (fst (c (proj s)), upd (snd (c (proj s))) s).
Proof. unfold zoom. now destruct (c (proj s)). Qed.


Lemma app_not_nil_l {A} (l1 l2 : list A) : l1 <> [] -> l1 ++ l2 <> [].
Proof. destruct l1; [congruence | discriminate]. Qed.

Lemma app_not_nil_r {A} (l1 l2 : list A) : l2 <> [] -> l1 ++ l2 <> [].
Proof. destruct l1; [auto | discriminate]. Qed.


End MonadFacts.
Import MonadFacts.

(** ** The tool registry *)

Module RegistryFacts.
Import Registry.

Section WithToolState.

Context {T : Type}.
Implicit Types (reg : ToolRegistry T) (w : tool_env T).

Lemma validate_params_ok (tool : Tool T) params :
  is_ok (validate_params tool params) = true ->
  validate_params tool params
  = Ok (_validate params (with_type "object" (tool_parameters tool)) "").
Proof.
  unfold validate_params. destruct (negb _); [discriminate | reflexivity].
Qed.

End WithToolState.

(** *** What [_validate] computes *)

Lemma _validate_unfold val sch path :
  _validate val sch path =
  let t := s_type sch in
  let label := if String.eqb path "" then "parameter" else path in
  if type_mismatch t val then [label +:+ " should be " +:+ default "" t]
  else
    enum_errors sch val label
    ++ (if type_is t "integer" || type_is t "number" then range_errors sch val label else [])
    ++ (if type_is t "string" then length_errors sch val label else [])
    ++ (if type_is t "object" then
          match val with
          | PDict d => required_errors sch d path ++ validate_props sch path d
          | _ => []
          end
        else [])
    ++ (if type_is t "array" then
          match s_items sch, val with
          | Some si, PList l => validate_elems si path 0 l
          | _, _ => []
          end
        else []).
Proof.
  assert (Hprops : forall d,
    (fix props (items : list (string * pyval)) : list string :=
       match items with
       | [] => []
       | (k, v) :: rest =>
           (match PyVal.lookup k (s_properties sch) with
            | Some sk => _validate v sk (dotted path k)
            | None => []
            end) ++ props rest
       end) d = validate_props sch path d).
  { induction d as [|[k v] d IH]; simpl; [reflexivity | now rewrite IH]. }
  assert (Helems : forall si l i,
    (fix elems (i : nat) (items : list pyval) : list string :=
       match items with
       | [] => []
       | item :: rest => _validate item si (indexed path i) ++ elems (S i) rest
       end) i l = validate_elems si path i l).
  { intros si l. induction l as [|x l IH]; intros i; simpl; [reflexivity | now rewrite IH]. }
  destruct val; simpl; try reflexivity.
  - destruct (type_mismatch _ _); [reflexivity|].
    destruct (s_items sch); [|reflexivity]. now rewrite Helems.
  - destruct (type_mismatch _ _); [reflexivity|]. now rewrite Hprops.
Qed.

Lemma validate_props_hit sch path d k v sk :
  In (k, v) d -> PyVal.lookup k (s_properties sch) = Some sk ->
  _validate v sk (dotted path k) <> [] ->
  validate_props sch path d <> [].
Proof.
  induction d as [|[k' v'] d IH]; simpl; [tauto|].
  intros [Heq | Hin] Hl Hv.
  - inversion Heq; subst. rewrite Hl. now apply app_not_nil_l.
  - apply app_not_nil_r. now apply IH.
Qed.

Lemma validate_elems_hit si path l v :
  In v l -> (forall p, _validate v si p <> []) ->
  forall i, validate_elems si path i l <> [].
Proof.
  induction l as [|x l IH]; simpl; [tauto|].
  intros [Heq | Hin] Hv i.
  - subst. now apply app_not_nil_l.
  - apply app_not_nil_r. now apply IH.
Qed.

Lemma required_errors_hit sch d path k :
  In k (s_required sch) -> PyVal.has_key k d = false ->
  required_errors sch d path <> [].
Proof.
  unfold required_errors. induction (s_required sch) as [|k' ks IH]; simpl; [tauto|].
  intros [-> | Hin] Hk.
  - rewrite Hk. discriminate.
  - apply app_not_nil_r. now apply IH.
Qed.

(** Every violation the specification names is reported by [_validate]. *)
Lemma spec_violation_reported sch v :
  spec_violation sch v -> forall path, _validate v sch path <> [].
Proof.
  induction 1 as
    [sch v t Ht Hi | sch v l He Hm | sch v z m Ht Hz Hm Hlt | sch v z m Ht Hz Hm Hlt
    | sch s m Ht Hm Hlt | sch s m Ht Hm Hlt | sch d k Ht Hk Hh
    | sch d k v sk Ht Hin Hl Hv IH | sch l si v Ht Hs Hin Hv IH];
    intros path; rewrite _validate_unfold; cbv zeta;
    destruct (type_mismatch (s_type sch) _) eqn:Hmis; try discriminate.
  - unfold type_mismatch in Hmis. rewrite Ht, Hi in Hmis. discriminate.
  - apply app_not_nil_l. unfold enum_errors. rewrite He, Hm. discriminate.
  - apply app_not_nil_r, app_not_nil_l. rewrite Ht.
    unfold range_errors. rewrite Hz, Hm.
    apply app_not_nil_l. destruct (Z.ltb_spec z m); [discriminate | lia].
  - apply app_not_nil_r, app_not_nil_l. rewrite Ht.
    unfold range_errors. rewrite Hz, Hm.
    apply app_not_nil_r. destruct (Z.ltb_spec m z); [discriminate | lia].
  - apply app_not_nil_r, app_not_nil_r, app_not_nil_l. rewrite Ht.
    unfold length_errors. rewrite Hm.
    apply app_not_nil_l. destruct (Z.ltb_spec (PyStr.len s) m); [discriminate | lia].
  - apply app_not_nil_r, app_not_nil_r, app_not_nil_l. rewrite Ht.
    unfold length_errors. rewrite Hm.
    apply app_not_nil_r. destruct (Z.ltb_spec m (PyStr.len s)); [discriminate | lia].
  - do 3 apply app_not_nil_r. apply app_not_nil_l. rewrite Ht.
    apply app_not_nil_l. eapply required_errors_hit; eauto.
  - do 3 apply app_not_nil_r. apply app_not_nil_l. rewrite Ht.
    apply app_not_nil_r. eapply validate_props_hit; eauto.
  - do 4 apply app_not_nil_r. rewrite Ht, Hs.
    eapply validate_elems_hit; eauto.
Qed.

Lemma execute_returns {T} (reg : ToolRegistry T) name params (e : tool_env T) :
  exists s, fst (execute reg name params e) = Ok s.
Proof.
  unfold execute. destruct (reg !! name) as [tool|]; [|eexists; reflexivity].
  unfold try_except, bind, lift_outcome, ret.
  destruct (validate_params tool params) as [[|err errs]|ex]; try (eexists; reflexivity).
  destruct (call_execute tool params e) as [[r|ex] e']; eexists; reflexivity.
Qed.



Lemma validated_params_are_dict sch params path :
  s_type sch = Some "object" -> _validate params sch path = [] ->
  exists kw, params = PDict kw.
Proof.
  intros Ht Hv. rewrite _validate_unfold in Hv. cbv zeta in Hv. rewrite Ht in Hv.
  destruct params; try (cbn in Hv; discriminate). eauto.
Qed.

(** C1. [ToolRegistry.execute] returns a string for every registry, name,
    argument value and state: it never raises.  A name that is not
    registered gives the "not found" text; a raise from validation or
    from the tool's body gives the "Error executing" text with the
    exception's message; validation errors give the "Invalid parameters"
    text; otherwise the string is the one the tool's body returned. *)
Theorem execute_never_raises {T} (reg : ToolRegistry T) name params (w : tool_env T) :
  exists s,
    fst (execute reg name params w) = Ok s /\
    match reg !! name with
    | None => s = "Error: Tool '" +:+ name +:+ "' not found"
    | Some tool =>
        match validate_params tool params with
        | Raise e => s = "Error executing " +:+ name +:+ ": " +:+ exn_str e
        | Ok (err :: errs) =>
            s = "Error: Invalid parameters for tool '" +:+ name +:+ "': "
                +:+ PyStr.join "; " (err :: errs)
        | Ok [] =>
            match params with
            | PDict kw =>
                match fst (tool_execute tool kw (te_state w)) with
                | Ok r => s = r
                | Raise e => s = "Error executing " +:+ name +:+ ": " +:+ exn_str e
                end
            | _ => False
            end
        end
    end.
Proof.
  unfold execute. destruct (reg !! name) as [tool|] eqn:Hreg.
  - unfold try_except, bind, lift_outcome, ret.
    destruct (validate_params tool params) as [errors|e] eqn:Hv.
    + destruct errors as [|err errors].
      * assert (Hdict : exists kw, params = PDict kw).
        { unfold validate_params in Hv. destruct (negb _); [discriminate|].
          inversion Hv as [Hnil]. eapply validated_params_are_dict; [|exact Hnil].
          reflexivity. }
        destruct Hdict as [kw ->]. cbn [call_execute].
        unfold bind, note_invoked, modify, zoom. cbn [te_state].
        destruct (tool_execute tool kw (te_state w)) as [[r|e] t']; cbn;
          eexists; split; reflexivity.
      * eexists; split; reflexivity.
    + eexists; split; reflexivity.
  - eexists; split; reflexivity.
Qed.

(** C2. For a registered tool and an argument value on which
    [validate_params] returns at least one error, [execute] returns the
    "Invalid parameters" text made of those errors and leaves the state
    as it was: in particular the record of entered tool bodies is
    unchanged, the body is never invoked.  And validation does report
    every violation that the specification lists (type, required field,
    enum, numeric range, string length, at any depth of nested objects
    and arrays): on such a value the outcome is that text. *)
Theorem invalid_params_never_reach_tool {T} (reg : ToolRegistry T) name tool params
    (w : tool_env T) :
  reg !! name = Some tool ->
  (forall errors,
     validate_params tool params = Ok errors -> errors <> [] ->
     execute reg name params w = (Ok (invalid_parameters name errors), w)) /\
  (default "object" (s_type (tool_parameters tool)) = "object" ->
   spec_violation (with_type "object" (tool_parameters tool)) params ->
   exists errors,
     errors <> [] /\
     validate_params tool params = Ok errors /\
     execute reg name params w = (Ok (invalid_parameters name errors), w) /\
     te_invoked (snd (execute reg name params w)) = te_invoked w).
Proof.
  intros Hreg.
  assert (Hexec : forall errors,
            validate_params tool params = Ok errors -> errors <> [] ->
            execute reg name params w = (Ok (invalid_parameters name errors), w)).
  { intros errors Hv Hne. unfold execute. rewrite Hreg.
    unfold try_except, bind, lift_outcome. rewrite Hv.
    destruct errors as [|err errs]; [congruence | reflexivity]. }
  split; [exact Hexec|].
  intros Hobj Hviol.
  pose proof (spec_violation_reported _ _ Hviol "") as Hne.
  assert (Hv : validate_params tool params
               = Ok (_validate params (with_type "object" (tool_parameters tool)) "")).
  { unfold validate_params. rewrite Hobj. reflexivity. }
  eexists. split; [exact Hne|]. split; [exact Hv|].
  rewrite (Hexec _ Hv Hne). split; reflexivity.
Qed.

End RegistryFacts.

(** ** The file tools *)

Module FilesystemFacts.
Import Registry Filesystem Observe Examples RegistryFacts.

Section FsTools.
Context {F : Type} `{PathLib F}.











End FsTools.

(** C2 at write_file called with a number for its path and no content. *)
Lemma invalid_params_witness :
  execute sandboxed_tools "write_file" (PDict [("path", PInt 7)]) env0
  = (Ok "Error: Invalid parameters for tool 'write_file': missing required content; path should be string",
     env0).
Proof.
  assert (Hreg : sandboxed_tools !! "write_file" = Some (WriteFileTool (Some sandbox))).
  { vm_compute. reflexivity. }
  apply (proj1 (invalid_params_never_reach_tool sandboxed_tools "write_file"
                  (WriteFileTool (Some sandbox)) (PDict [("path", PInt 7)]) env0 Hreg)
           ["missing required content"; "path should be string"]).
  - vm_compute. reflexivity.
  - discriminate.
Defined.

End FilesystemFacts.


(** ** datetime *)

Module DateTimeFacts.

Lemma digit_value_digit n : digit_value (digit n) = Some (n mod 10).
Proof.
  unfold digit_value, digit.
  pose proof (Z.mod_pos_bound n 10 ltac:(lia)) as Hb.
  rewrite nat_ascii_embedding by lia.
  destruct (Nat.leb_spec 48 (48 + Z.to_nat (n mod 10))); [|lia].
  destruct (Nat.leb_spec (48 + Z.to_nat (n mod 10)) 57); [|lia].
  cbn [andb]. f_equal. lia.
Qed.

Lemma digits_snoc w acc s :
  digits (S w) acc s
  = match digits w acc s with
    | Some (a, String c s') =>
        match digit_value c with
        | Some v => Some (10 * a + v, s')
        | None => None
        end
    | _ => None
    end.
Proof.
  revert acc s. induction w as [|w IH]; intros acc s.
  - cbn [digits]. destruct s as [|c s']; [reflexivity|].
    destruct (digit_value c); reflexivity.
  - destruct s as [|c s']; [reflexivity|].
    change (digits (S (S w)) acc (String c s'))
      with (match digit_value c with
            | Some v => digits (S w) (10 * acc + v) s'
            | None => None
            end).
    change (digits (S w) acc (String c s'))
      with (match digit_value c with
            | Some v => digits w (10 * acc + v) s'
            | None => None
            end).
    destruct (digit_value c) as [v|]; [|reflexivity].
    apply IH.
Qed.

Lemma append_assoc3 (a b c : string) : (a +:+ b) +:+ c = a +:+ (b +:+ c).
Proof.
  induction a as [|x a IH]; [reflexivity|].
  change (String x ((a +:+ b) +:+ c) = String x (a +:+ (b +:+ c))).
  now rewrite IH.
Qed.

(** Reading back a zero-padded number. *)
Lemma digits_pad w n acc rest :
  0 <= n < 10 ^ Z.of_nat w ->
  digits w acc (pad w n +:+ rest) = Some (acc * 10 ^ Z.of_nat w + n, rest).
Proof.
  revert n acc rest. induction w as [|w IH]; intros n acc rest Hn.
  - cbn in *. f_equal. f_equal. lia.
  - rewrite digits_snoc. cbn [pad]. rewrite append_assoc3.
    assert (Hpow : 10 ^ Z.of_nat (S w) = 10 * 10 ^ Z.of_nat w).
    { rewrite Nat2Z.inj_succ, Z.pow_succ_r by lia. reflexivity. }
    rewrite IH.
    2:{ split; [apply Z.div_pos; lia|]. apply Z.div_lt_upper_bound; lia. }
    change (String (digit n) EmptyString +:+ rest) with (String (digit n) rest).
    cbv iota beta. rewrite digit_value_digit. f_equal. f_equal.
    rewrite Hpow. pose proof (Z.div_mod n 10 ltac:(lia)). lia.
Qed.

Lemma valid_bounds d :
  valid d = true ->
  0 <= year d < 10 ^ 4 /\ 0 <= month d < 10 ^ 2 /\ 0 <= day d < 10 ^ 2 /\
  0 <= hour d < 10 ^ 2 /\ 0 <= minute d < 10 ^ 2 /\ 0 <= second d < 10 ^ 2 /\
  0 <= microsecond d < 10 ^ 6.
Proof.
  unfold valid. rewrite !andb_true_iff.
  rewrite !Z.leb_le, !Z.ltb_lt. intros H.
  assert (days_in_month (year d) (month d) <= 31).
  { unfold days_in_month. repeat (destruct (_ =? _) || destruct (is_leap _) || cbn); lia. }
  lia.
Qed.

Lemma expect_lit c s : expect c (String c EmptyString +:+ s) = Some s.
Proof.
  change (String c EmptyString +:+ s) with (String c s).
  unfold expect. now rewrite Ascii.eqb_refl.
Qed.

Lemma append_empty_r (s : string) : s +:+ EmptyString = s.
Proof.
  induction s as [|x s IH]; [reflexivity|].
  change (String x (s +:+ EmptyString) = String x s). now rewrite IH.
Qed.

Lemma parse_isoformat d : valid d = true -> parse (isoformat d) = Some d.
Proof.
  intros Hv. pose proof (valid_bounds d Hv) as (Hy & Hmo & Hd & Hh & Hmi & Hs & Hus).
  destruct d as [y mo dd h mi se us].
  cbn [year month day hour minute second microsecond] in *.
  unfold parse, isoformat.
  cbn [year month day hour minute second microsecond].
  rewrite (digits_pad 4) by exact Hy. cbn [mbind option_bind]. rewrite expect_lit.
  cbn [mbind option_bind].
  rewrite (digits_pad 2) by exact Hmo. cbn [mbind option_bind]. rewrite expect_lit.
  cbn [mbind option_bind].
  rewrite (digits_pad 2) by exact Hd. cbn [mbind option_bind]. rewrite expect_lit.
  cbn [mbind option_bind].
  rewrite (digits_pad 2) by exact Hh. cbn [mbind option_bind]. rewrite expect_lit.
  cbn [mbind option_bind].
  rewrite (digits_pad 2) by exact Hmi. cbn [mbind option_bind]. rewrite expect_lit.
  cbn [mbind option_bind].
  rewrite (digits_pad 2) by exact Hs. cbn [mbind option_bind].
  replace (0 * 10 ^ Z.of_nat 4 + y) with y by lia.
  replace (0 * 10 ^ Z.of_nat 2 + mo) with mo by lia.
  replace (0 * 10 ^ Z.of_nat 2 + dd) with dd by lia.
  replace (0 * 10 ^ Z.of_nat 2 + h) with h by lia.
  replace (0 * 10 ^ Z.of_nat 2 + mi) with mi by lia.
  replace (0 * 10 ^ Z.of_nat 2 + se) with se by lia.
  destruct (Z.eqb_spec us 0) as [-> | Hne]; [reflexivity|].
  change ("." +:+ pad 6 us) with (String "." (pad 6 us)).
  cbv iota beta.
  change (String "." (pad 6 us)) with ("." +:+ pad 6 us).
  rewrite expect_lit. cbn [mbind option_bind].
  rewrite <- (append_empty_r (pad 6 us)).
  rewrite (digits_pad 6) by exact Hus. cbn [mbind option_bind].
  replace (0 * 10 ^ Z.of_nat 6 + us) with us by lia. reflexivity.
Qed.

(** [fromisoformat] reads back what [isoformat] wrote. *)
Lemma fromisoformat_isoformat d : valid d = true -> fromisoformat (isoformat d) = Ok d.
Proof.
  intros Hv. unfold fromisoformat. rewrite (parse_isoformat d Hv), Hv. reflexivity.
Qed.

End DateTimeFacts.

(** ** The session store *)

Module SessionFacts.
Import SessionStore Observe Examples.

Lemma slice_from_last {A} (n : nat) (l : list A) :
  (0 < n < length l)%nat -> slice_from (- Z.of_nat n) l = last_n n l.
Proof.
  intros Hlt. unfold slice_from, last_n.
  destruct (Z.ltb_spec (- Z.of_nat n) 0) as [Hneg | Hpos]; [|lia].
  f_equal. lia.
Qed.

(** The window [get_history] reads. *)
Lemma recent_is_last_50 (s : Session) :
  (if default_max_messages <? Z.of_nat (length (messages s))
   then slice_from (- default_max_messages) (messages s)
   else messages s) = last_n 50 (messages s).
Proof.
  unfold default_max_messages.
  destruct (Z.ltb_spec 50 (Z.of_nat (length (messages s)))) as [Hlt | Hge].
  - apply (slice_from_last 50). lia.
  - unfold last_n. replace (length (messages s) - 50)%nat with 0%nat by lia.
    now rewrite drop_0.
Qed.

Lemma role_and_content_ok m e : role_and_content m = Ok e -> stripped m e.
Proof.
  unfold role_and_content, getitem, stripped.
  destruct (PyVal.lookup "role" m) as [r|]; [|discriminate].
  destruct (PyVal.lookup "content" m) as [c|]; [|discriminate].
  intros [= <-]. eauto.
Qed.

Lemma role_and_content_raise m e :
  role_and_content m = Raise e ->
  exn_class e = "KeyError" /\
  (PyVal.lookup "role" m = None \/ PyVal.lookup "content" m = None).
Proof.
  unfold role_and_content, getitem.
  destruct (PyVal.lookup "role" m) as [r|].
  - destruct (PyVal.lookup "content" m) as [c|]; [discriminate|].
    intros [= <-]. auto.
  - intros [= <-]. auto.
Qed.

Lemma outcomes_ok {A B} (f : A -> outcome B) (l : list A) (h : list B) :
  outcomes (map f l) = Ok h -> Forall2 (fun a b => f a = Ok b) l h.
Proof.
  revert h. induction l as [|a l IH]; simpl; intros h.
  - intros [= <-]. constructor.
  - destruct (f a) as [b|e] eqn:Hf; [|discriminate].
    destruct (outcomes (map f l)) as [r|e]; [|discriminate].
    intros [= <-]. constructor; auto.
Qed.

Lemma outcomes_raise {A B} (f : A -> outcome B) (l : list A) e :
  outcomes (map f l) = Raise e -> exists a, In a l /\ f a = Raise e.
Proof.
  induction l as [|a l IH]; simpl; [discriminate|].
  destruct (f a) as [b|e'] eqn:Hf.
  - destruct (outcomes (map f l)) as [r|e'']; [discriminate|].
    intros [= <-]. destruct IH as [a' [Hin Ha']]; [reflexivity|]. eauto.
  - intros [= <-]. eauto.
Qed.

Lemma length_last_n {A} n (l : list A) : length (last_n n l) = Nat.min n (length l).
Proof. unfold last_n. rewrite length_drop. lia. Qed.

(** C10. [Session.get_history] with its default window reads the 50 most
    recent stored messages only: it returns one entry per message of that
    window, in order, each with exactly the keys role and content and the
    values stored under them (no timestamp, no tools_used), so at most 50
    entries; it raises (KeyError) only when a message of the window lacks
    one of the two keys.  The function returns a new list; the session,
    and with it every older message, stays as it was. *)
Theorem get_history_window (s : Session) :
  match get_history default_max_messages s with
  | Ok h =>
      (length h <= 50)%nat /\
      length h = Nat.min 50 (length (messages s)) /\
      Forall2 stripped (last_n 50 (messages s)) h /\
      Forall (fun e => PyVal.keys e = ["role"; "content"]) h
  | Raise e =>
      exn_class e = "KeyError" /\
      exists m, In m (last_n 50 (messages s)) /\
                (PyVal.lookup "role" m = None \/ PyVal.lookup "content" m = None)
  end.
Proof.
  unfold get_history. rewrite recent_is_last_50.
  destruct (outcomes (map role_and_content (last_n 50 (messages s)))) as [h|e] eqn:Hh.
  - apply outcomes_ok in Hh.
    assert (Hs : Forall2 stripped (last_n 50 (messages s)) h).
    { eapply Forall2_impl; [exact Hh|]. intros m e. apply role_and_content_ok. }
    assert (Hlen : length h = Nat.min 50 (length (messages s))).
    { rewrite <- (Forall2_length _ _ _ Hs). apply length_last_n. }
    repeat split; [lia | exact Hlen | exact Hs |].
    clear Hh Hlen. induction Hs as [|m e ms es Hme _ IH]; constructor; [|exact IH].
    destruct Hme as (r & c & _ & _ & ->). reflexivity.
  - apply outcomes_raise in Hh. destruct Hh as (m & Hin & Hm).
    apply role_and_content_raise in Hm. destruct Hm as [Hc Hk]. eauto.
Qed.

(** *** Saving and reloading *)


Lemma isoformat_not_empty d : valid d = true -> isoformat d <> "".
Proof.
  intros Hv He. pose proof (DateTimeFacts.parse_isoformat d Hv) as Hp.
  rewrite He in Hp. discriminate Hp.
Qed.

(** Message lines are read back in order, after what was already read. *)
Lemma load_lines_messages (ms : list pydict) (st : load_state) :
  Forall (fun m => is_metadata m = false) ms ->
  load_lines st (map (fun msg => JsonLine (PDict msg)) ms)
  = Ok {| ld_messages := ld_messages st ++ ms; ld_metadata := ld_metadata st;
          ld_created_at := ld_created_at st |}.
Proof.
  revert st. induction ms as [|m ms IH]; intros st Hms.
  - cbn. rewrite app_nil_r. destruct st; reflexivity.
  - inversion Hms as [|? ? Hm Hrest]; subst.
    cbn [map load_lines load_line]. rewrite Hm. rewrite (IH _ Hrest).
    cbn [ld_messages ld_metadata ld_created_at]. rewrite <- app_assoc. reflexivity.
Qed.

(** What a saved session looks like after a restart: everything comes
    back as saved except [updated_at], which is the time of the reload. *)
Lemma save_then_reload (s : Session) (m : SessionManager) (now : datetime) :
  valid (created_at s) = true ->
  Forall (fun msg => is_metadata msg = false) (messages s) ->
  open_error m (_get_session_path (key s)) = None ->
  fst (fst (get_or_create now (key s) (restart (snd (save s m)))))
  = {| key := key s; messages := messages s; created_at := created_at s;
       updated_at := now; metadata := metadata s |}.
Proof.
  intros Hv Hms Hopen.
  unfold save. rewrite Hopen. cbn [snd].
  unfold get_or_create, restart, with_cache, with_files.
  cbn [_cache sessions_dir open_error]. rewrite lookup_empty.
  unfold _load. cbn [sessions_dir]. rewrite lookup_insert_eq.
  cbn [load_lines load_line metadata_line].
  change (is_metadata _) with true at 1. cbv iota.
  change (PyVal.lookup "created_at" _) with (Some (PStr (isoformat (created_at s)))) at 1.
  change (PyVal.lookup "metadata" _) with (Some (metadata s)) at 1.
  cbv iota. unfold PyVal.truthy.
  destruct (String.eqb_spec (isoformat (created_at s)) "") as [He | _];
    [now apply isoformat_not_empty in He|].
  cbn [negb]. rewrite (DateTimeFacts.fromisoformat_isoformat _ Hv).
  rewrite load_lines_messages by exact Hms.
  reflexivity.
Qed.

(** C4, at a session with one turn saved at [t0] and reloaded, with an
    empty cache, at [t1].  The message list (timestamps included) and
    [created_at] come back as saved.  [updated_at] does not: the saved
    metadata line holds it, but [_load] never reads it, so the reloaded
    session carries the time of the reload. *)
Theorem reload_forgets_updated_at :
  let saved := snd (save one_turn_session empty_manager) in
  let reloaded := fst (fst (get_or_create t1 "telegram:42" (restart saved))) in
  sessions_dir saved !! "telegram_42.jsonl"
    = Some [JsonLine (PDict [("_type", PStr "metadata");
                             ("created_at", PStr "2026-02-07T09:30:15.250000");
                             ("updated_at", PStr "2026-02-07T09:30:15.250000");
                             ("metadata", PDict [])]);
            JsonLine (PDict [("role", PStr "user"); ("content", PStr "hello");
                             ("timestamp", PStr "2026-02-07T09:30:15.250000")])] /\
  messages reloaded = messages one_turn_session /\
  created_at reloaded = created_at one_turn_session /\
  updated_at one_turn_session = t0 /\
  updated_at reloaded = t1 /\
  updated_at reloaded <> updated_at one_turn_session.
Proof. vm_compute. repeat split; discriminate. Qed.

End SessionFacts.

(** ** The bus *)

Module BusFacts.
Import Bus Examples.

Section Dispatch.

Context {C : Type}.
Implicit Types (w : bus_world C) (msg : OutboundMessage).

(** Every subscriber of the list is called with the message, in order,
    whatever the earlier ones did; the loop itself never raises. *)
Lemma call_subscribers_calls_all (subs : list (callback C)) i msg w :
  fst (call_subscribers i subs msg w) = Ok tt /\
  bw_called (snd (call_subscribers i subs msg w))
  = rev (map (fun j => (j, msg)) (seq i (length subs))) ++ bw_called w.
Proof.
  revert i w. induction subs as [|cb subs IH]; intros i w.
  - split; reflexivity.
  - assert (Hstep : exists w1,
      call_subscribers i (cb :: subs) msg w = call_subscribers (S i) subs msg w1 /\
      bw_called w1 = (i, msg) :: bw_called w).
    { cbn [call_subscribers].
      destruct (cb msg (bw_channels w)) as [[[]|e] c'] eqn:Hcb.
      all: unfold bind at 1, try_except, bind, note_called, modify, zoom, log; cbn;
        rewrite Hcb; cbn; eexists; split; reflexivity. }
    destruct Hstep as (w1 & -> & Hc). destruct (IH (S i) w1) as [IH1 IH2].
    split; [exact IH1|]. rewrite IH2, Hc. cbn [length seq map rev].
    now rewrite <- app_assoc.
Qed.

(** A callback that raises leaves one ERROR record; the loop goes on. *)
Lemma failing_subscriber_is_logged (cb : callback C) subs i msg w e c' :
  cb msg (bw_channels w) = (Raise e, c') ->
  exists w1,
    bw_log w1 = (ERROR, "Error dispatching to " +:+ out_channel msg +:+ ": " +:+ exn_str e)
                :: bw_log w /\
    call_subscribers i (cb :: subs) msg w = call_subscribers (S i) subs msg w1.
Proof.
  intros Hcb. cbn [call_subscribers]. unfold bind at 1.
  unfold try_except, bind, note_called, modify, zoom, log. cbn. rewrite Hcb. cbn.
  eexists. split; [|reflexivity]. reflexivity.
Qed.

(** With no subscriber for the channel, nothing is called and nothing is
    logged. *)
Lemma dispatch_message_unknown msg w :
  _outbound_subscribers (bw_bus w) !! out_channel msg = None ->
  dispatch_message msg w = (Ok tt, w).
Proof.
  intros Hnone. unfold dispatch_message, bind, get. rewrite Hnone. reflexivity.
Qed.

End Dispatch.

(** C5, at a message for the channel "matrix" when only "telegram" has a
    subscriber.  [MessageBus.dispatch_outbound] takes the message off the
    queue and calls nobody, as claimed, but it logs nothing: there is no
    warning.  The sibling dispatcher of channels/manager.py does log
    "Unknown channel" for the same message. *)
Theorem bus_drops_unknown_channel_without_warning :
  let after := snd (dispatch_turn telegram_only) in
  outbound_queue (bw_bus after) = [] /\
  bw_called after = [] /\
  bw_channels after = [] /\
  bw_log after = [] /\
  bw_log (snd (channel_manager_dispatch {[ "telegram" := telegram_send ]}
                 (outbound "matrix" "room-1" "hi") telegram_only))
  = [(WARNING, "Unknown channel: matrix")].
Proof. vm_compute. repeat split. Qed.

End BusFacts.

(** ** The agent loop *)

Module LoopFacts.
Import Registry Filesystem SessionStore Bus Agent Subagent Observe Examples.
Import RegistryFacts FilesystemFacts.

Section Counting.
Context {T : Type}.

Section Generic.
Context {S : Type} (count : S -> nat).

Lemma cam_weaken {A} n m (c : M S A) :
  (n <= m)%nat -> calls_at_most count n c -> calls_at_most count m c.
Proof. intros Hle H s. specialize (H s). lia. Qed.

Lemma cam_ret {A} (a : A) : calls_at_most count 0 (ret a).
Proof. intros s. cbn. lia. Qed.

Lemma cam_raise {A} e : calls_at_most count 0 (@raise _ A e).
Proof. intros s. cbn. lia. Qed.

Lemma cam_lift {A} (o : outcome A) : calls_at_most count 0 (lift_outcome o).
Proof. intros s. cbn. lia. Qed.

Lemma cam_get : calls_at_most count 0 get.
Proof. intros s. cbn. lia. Qed.

Lemma cam_bind {A B} n m (c : M S A) (k : A -> M S B) :
  calls_at_most count n c -> (forall a, calls_at_most count m (k a)) ->
  calls_at_most count (n + m) (bind c k).
Proof.
  intros Hc Hk s. unfold bind. specialize (Hc s).
  destruct (c s) as [[a|e] s1]; cbn in *.
  - specialize (Hk a s1). lia.
  - lia.
Qed.

Lemma cam_bind_l {A B} n (c : M S A) (k : A -> M S B) :
  calls_at_most count 0 c -> (forall a, calls_at_most count n (k a)) ->
  calls_at_most count n (bind c k).
Proof. intros Hc Hk. apply (cam_bind 0 n); assumption. Qed.

Lemma cam_bind_r {A B} n (c : M S A) (k : A -> M S B) :
  calls_at_most count n c -> (forall a, calls_at_most count 0 (k a)) ->
  calls_at_most count n (bind c k).
Proof.
  intros Hc Hk. eapply cam_weaken; [|apply (cam_bind n 0); eassumption]. lia.
Qed.

Lemma cam_try {A} n m (c : M S A) h :
  calls_at_most count n c -> (forall e, calls_at_most count m (h e)) ->
  calls_at_most count (n + m) (try_except c h).
Proof.
  intros Hc Hh s. unfold try_except. specialize (Hc s).
  destruct (c s) as [[a|e] s1]; cbn in *.
  - lia.
  - specialize (Hh e s1). lia.
Qed.

Lemma cam_modify (f : S -> S) :
  (forall s, count (f s) = count s) -> calls_at_most count 0 (modify f).
Proof. intros Hf s. cbn. rewrite Hf. lia. Qed.

Lemma cam_zoom {S' A} (proj : S -> S') upd (c : M S' A) :
  (forall x s, count (upd x s) = count s) -> calls_at_most count 0 (zoom proj upd c).
Proof.
  intros Hu s. unfold zoom. destruct (c (proj s)) as [r x]. cbn.
  rewrite Hu. lia.
Qed.

End Generic.

Lemma cam_chat p msgs : calls_at_most (@chat_count T) 1 (provider_chat p msgs).
Proof. intros w. unfold provider_chat, chat_count. cbn. lia. Qed.

Lemma cam_on_world {A} n (c : M (world T) A) :
  calls_at_most chat_count n c -> calls_at_most chats2 n (on_world c).
Proof.
  intros H [s w]. unfold on_world, zoom, chats2. specialize (H w). cbn.
  destruct (c w) as [r w']. cbn in *. exact H.
Qed.

Lemma cam_on_session {A} n s (c : M (Session * world T) A) :
  calls_at_most chats2 n c -> calls_at_most chat_count n (on_session s c).
Proof.
  intros H w. unfold on_session. specialize (H (s, w)). unfold chats2 in H.
  destruct (c (s, w)) as [[a|e] [s' w']]; cbn in *; exact H.
Qed.

End Counting.

Ltac cam0 :=
  repeat first
    [ apply cam_ret | apply cam_raise | apply cam_lift | apply cam_get
    | apply cam_modify; intros; reflexivity
    | apply cam_zoom; intros; reflexivity
    | apply (cam_on_world 0)
    | apply (cam_bind _ 0 0); [|intros]
    | match goal with
      | |- calls_at_most _ 0 (if ?b then _ else _) => destruct b
      | |- calls_at_most _ 0 (match ?x with _ => _ end) => destruct x
      end ].


Section Loop.
Context {T : Type}.
Implicit Types (w : world T) (al : AgentLoop T).


Lemma frame_trans w1 w2 w3 : frame w1 w2 -> frame w2 w3 -> frame w1 w3.
Proof.
  unfold frame. intros (a1&a2&a3&a4&a5&a6&a7&a8) (b1&b2&b3&b4&b5&b6&b7&b8).
  repeat split; congruence.
Qed.

Lemma tools_execute_spec al name args w :
  exists s w', tools_execute al name args w = (Ok s, w') /\
               w_chats w' = w_chats w /\ w_log w' = w_log w /\ frame w w'.
Proof.
  unfold tools_execute, zoom.
  destruct (execute_returns (tools al) name args (w_tools w)) as [s Hs].
  destruct (execute (tools al) name args (w_tools w)) as [r e'] eqn:He.
  cbn in Hs. subst r. eexists _, _. split; [reflexivity|].
  repeat split.
Qed.

Lemma exec_tool_calls_spec al track calls st w :
  exists st' w', exec_tool_calls al track calls st w = (Ok st', w') /\
    ls_iteration st' = ls_iteration st /\
    ls_final_content st' = ls_final_content st /\
    w_chats w' = w_chats w /\ frame w w'.
Proof.
  revert st w. induction calls as [|tc calls IH]; intros st w.
  - eexists _, _. split; [reflexivity|]. repeat split.
  - cbn [exec_tool_calls]. unfold bind at 1, logger at 1, modify at 1.
    unfold bind at 1.
    destruct (tools_execute_spec al (tc_name tc) (tc_arguments tc)
                (set_log ((INFO, "Tool call: " +:+ tc_name tc +:+ "("
                    +:+ PyStr.take 200 (PyVal.json_dumps (tc_arguments tc)) +:+ ")") :: w_log w) w))
      as (s & w1 & -> & Hc1 & _ & Hf1).
    edestruct IH as (st' & w' & -> & Hi & Hfc & Hc & Hf).
    eexists _, _. split; [reflexivity|].
    split; [exact Hi|]. split; [exact Hfc|].
    split; [now rewrite Hc, Hc1|].
    eapply frame_trans; [|exact Hf]. eapply frame_trans; [|exact Hf1]. repeat split.
Qed.


Lemma on_tool_calls_spec al track response st w :
  exists st' w', on_tool_calls al track response st w = (Ok st', w') /\
    ls_iteration st' = ls_iteration st /\
    ls_final_content st' = ls_final_content st /\
    w_chats w' = w_chats w /\ frame w w'.
Proof.
  unfold on_tool_calls, bind.
  edestruct exec_tool_calls_spec as (st' & w' & -> & Hi & Hfc & Hc & Hf).
  eexists _, _. split; [reflexivity|]. cbn. auto.
Qed.

(** One turn of the [while] loop, spelled out. *)
Lemma react_loop_turn al track fuel st w :
  ls_iteration st < max_iterations al ->
  react_loop al track (S fuel) st w =
  let w1 := set_chats (ls_messages st :: w_chats w) w in
  match chat (provider al) (chat_count w) (ls_messages st) with
  | Ok response =>
      if has_tool_calls response then
        match on_tool_calls al track response (next_turn st) w1 with
        | (Ok st2, w2) => react_loop al track fuel st2 w2
        | (Raise e, w2) => (Raise e, w2)
        end
      else
        (Ok {| ls_messages := ls_messages st; ls_iteration := ls_iteration st + 1;
               ls_final_content := content response;
               ls_tools_used := ls_tools_used st |}, w1)
  | Raise e => (Raise e, w1)
  end.
Proof.
  intros Hlt. cbn [react_loop]. rewrite (proj2 (Z.ltb_lt _ _) Hlt).
  unfold bind at 1, provider_chat. cbn [ls_messages].
  destruct (chat (provider al) (chat_count w) (ls_messages st)) as [response|e];
    [|reflexivity].
  destruct (has_tool_calls response); reflexivity.
Qed.

Lemma react_loop_exit al track fuel st w :
  max_iterations al <= ls_iteration st -> react_loop al track fuel st w = (Ok st, w).
Proof.
  intros Hge. destruct fuel; cbn [react_loop];
    rewrite (proj2 (Z.ltb_ge _ _) Hge); reflexivity.
Qed.

(** The loop makes one inference call per turn: [n] calls in all, with
    [n] no more than the fuel and no more than the turns the ceiling
    leaves, and the counter ends [n] higher. *)
Lemma react_loop_calls al track fuel st w :
  exists n : nat,
    chat_count (snd (react_loop al track fuel st w)) = (chat_count w + n)%nat /\
    (n <= fuel)%nat /\
    Z.of_nat n <= Z.max 0 (max_iterations al - ls_iteration st) /\
    frame w (snd (react_loop al track fuel st w)) /\
    match fst (react_loop al track fuel st w) with
    | Ok st' => ls_iteration st' = ls_iteration st + Z.of_nat n
    | Raise _ => True
    end.
Proof.
  revert st w. induction fuel as [|fuel IH]; intros st w.
  - exists 0%nat. cbn [react_loop]. destruct (ls_iteration st <? max_iterations al);
      cbn; repeat split; lia.
  - destruct (Z.lt_ge_cases (ls_iteration st) (max_iterations al)) as [Hlt | Hge].
    2:{ rewrite react_loop_exit by exact Hge. exists 0%nat; cbn; repeat split; lia. }
    rewrite react_loop_turn by exact Hlt. cbv zeta.
    destruct (chat (provider al) (chat_count w) (ls_messages st)) as [response | e].
    + destruct (has_tool_calls response).
      * edestruct on_tool_calls_spec as (st2 & w2 & -> & Hi & _ & Hc & Hf).
        destruct (IH st2 w2) as (n & Hn & Hfuel & Hmax & Hfr & Hres).
        assert (Hw2 : chat_count w2 = S (chat_count w)).
        { unfold chat_count. rewrite Hc. reflexivity. }
        cbn [ls_iteration next_turn] in Hi. rewrite Hi in Hmax, Hres.
        exists (S n). rewrite Hn, Hw2.
        split; [lia|]. split; [lia|]. split; [lia|].
        split. { eapply frame_trans; [|exact Hfr]. eapply frame_trans; [|exact Hf]. repeat split. }
        destruct (fst _); [lia | exact I].
      * exists 1%nat. unfold chat_count. cbn. repeat split; lia.
    + exists 1%nat. unfold chat_count. cbn. repeat split; lia.
Qed.


Lemma run_react_loop_cam al track msgs :
  calls_at_most chat_count (Z.to_nat (max_iterations al)) (run_react_loop al track msgs).
Proof.
  intros w. unfold run_react_loop.
  destruct (react_loop_calls al track (Z.to_nat (max_iterations al))
              (initial_loop_state msgs) w) as (n & Hn & Hfuel & _).
  lia.
Qed.

Lemma consolidate_cam al archive_all :
  calls_at_most chats2 1 (_consolidate_memory al archive_all).
Proof.
  unfold _consolidate_memory.
  apply cam_bind_l.
  { unfold consolidation_setup, the_session, logger. cam0. }
  intros [[[keep_count prompt] current_memory]|]; [|apply (cam_weaken _ 0); [lia | cam0]].
  apply (cam_try _ 1 0); [| intros; unfold logger; cam0].
  apply cam_bind_r.
  - unfold summarise, text_of', text_of.
    apply cam_bind_r; [apply cam_on_world, cam_chat | intros response]. cam0.
  - intros _. unfold trim_and_save, the_session, assign_messages, logger. cam0.
Qed.

Lemma cam_get_or_create k :
  calls_at_most (@chat_count T) 0 (sessions_get_or_create k).
Proof.
  intros w. unfold sessions_get_or_create.
  destruct (get_or_create (w_clock w) k (w_sessions w)) as [[s m] logged].
  unfold chat_count. cbn. lia.
Qed.

Lemma cam_build_messages al history current media channel chat_id :
  calls_at_most chat_count 0 (build_messages al history current media channel chat_id).
Proof. unfold build_messages. cam0. Qed.

Lemma process_system_message_cam al msg :
  calls_at_most chat_count (Z.to_nat (max_iterations al)) (_process_system_message al msg).
Proof.
  unfold _process_system_message, logger, now, set_tool_contexts, sessions_save.
  destruct (parse_origin (in_chat_id msg)) as [origin_channel origin_chat_id].
  apply cam_bind_l; [cam0 | intros _].
  apply cam_bind_l; [apply cam_get_or_create | intros session].
  apply cam_bind_l; [cam0 | intros _].
  apply cam_bind_l; [cam0 | intros history].
  apply cam_bind_l; [apply cam_build_messages | intros msgs].
  apply cam_bind_r; [apply run_react_loop_cam | intros st].
  cam0.
Qed.

Lemma process_message_cam al msg session_key :
  calls_at_most chat_count (S (Z.to_nat (max_iterations al)))
                (_process_message al msg session_key).
Proof.
  unfold _process_message.
  destruct (String.eqb (in_channel msg) "system").
  { eapply cam_weaken; [|apply process_system_message_cam]. lia. }
  unfold logger, now, set_tool_contexts, sessions_save.
  apply cam_bind_l; [cam0 | intros _].
  apply cam_bind_l; [apply cam_get_or_create | intros session].
  destruct (String.eqb _ "/new").
  { apply (cam_weaken _ 1); [lia|].
    apply cam_bind_r; [apply cam_on_session, consolidate_cam | intros r]. cam0. }
  destruct (String.eqb _ "/help"); [apply (cam_weaken _ 0); [lia | cam0]|].
  apply (cam_bind _ 1 (Z.to_nat (max_iterations al))).
  { destruct (memory_window al <? _).
    - apply cam_bind_r; [apply cam_on_session, consolidate_cam | intros; cam0].
    - apply (cam_weaken _ 0); [lia | cam0]. }
  intros session'.
  apply cam_bind_l; [cam0 | intros _].
  apply cam_bind_l; [cam0 | intros history].
  apply cam_bind_l; [apply cam_build_messages | intros msgs].
  apply cam_bind_r; [apply run_react_loop_cam | intros st].
  cam0.
Qed.

End Loop.

Section Origin.
Context {T : Type}.
Implicit Types (w : world T) (al : AgentLoop T).










End Origin.
Section Consolidation.
Context {T : Type}.
Implicit Types (w : world T) (al : AgentLoop T) (s : Session).

Lemma ks_ret {A} (a : A) : keeps_session (T:=T) (ret a).
Proof. intros sw. reflexivity. Qed.

Lemma ks_lift {A} (o : outcome A) : keeps_session (T:=T) (lift_outcome o).
Proof. intros sw. reflexivity. Qed.

Lemma ks_on_world {A} (c : M (world T) A) : keeps_session (on_world c).
Proof. intros [s w]. unfold on_world, zoom. cbn. now destruct (c w). Qed.

Lemma ks_the_session : keeps_session (T:=T) the_session.
Proof. intros sw. reflexivity. Qed.

Lemma ks_bind {A B} (c : M (Session * world T) A) k :
  keeps_session c -> (forall a : A, keeps_session (k a)) -> keeps_session (@bind _ A B c k).
Proof.
  intros Hc Hk sw. unfold bind. specialize (Hc sw).
  destruct (c sw) as [[a|e] sw1]; cbn in *; [|exact Hc].
  rewrite <- Hc. apply Hk.
Qed.

Ltac ks :=
  repeat first
    [ apply ks_ret | apply ks_lift | apply ks_on_world | apply ks_the_session
    | apply ks_bind; [|intros]
    | match goal with
      | |- keeps_session (if ?b then _ else _) => destruct b
      | |- keeps_session (match ?x with _ => _ end) => destruct x
      end ].

Lemma summarise_keeps_session al prompt cm : keeps_session (summarise al prompt cm).
Proof. unfold summarise, text_of'. ks. Qed.

Lemma setup_keeps_session al archive_all : keeps_session (consolidation_setup al archive_all).
Proof. unfold consolidation_setup. ks. Qed.

(** [trim_and_save] cuts the session first; the save that follows may
    fail, the cut stays. *)
Lemma trim_and_save_spec keep_count s w :
  let trimmed := with_messages (retained keep_count s) s in
  match save trimmed (w_sessions w) with
  | (Ok _, m) =>
      trim_and_save keep_count (s, w)
      = (Ok tt, (trimmed,
                 set_log ((INFO, "Memory consolidation done, session trimmed to "
                                 +:+ pretty (length (messages trimmed)) +:+ " messages")
                          :: w_log w) (set_sessions m w)))
  | (Raise e, m) =>
      trim_and_save keep_count (s, w) = (Raise e, (trimmed, set_sessions m w))
  end.
Proof.
  cbv zeta. unfold retained.
  cbv [trim_and_save bind the_session get ret assign_messages modify on_world zoom
       logger fst snd].
  destruct (save _ (w_sessions w)) as [[[]|e] m]; reflexivity.
Qed.


Lemma summarise_chat_raises al prompt cm s w e :
  chat (provider al) (chat_count w) (consolidation_messages prompt) = Raise e ->
  fst (summarise al prompt cm (s, w)) = Raise e.
Proof.
  intros H. cbv [summarise bind on_world zoom provider_chat fst snd]. now rewrite H.
Qed.

Lemma summarise_json_raises al prompt cm s w r e :
  chat (provider al) (chat_count w) (consolidation_messages prompt) = Ok r ->
  json_loads al (clean_response (content r)) = Raise e ->
  fst (summarise al prompt cm (s, w)) = Raise e.
Proof.
  intros H1 H2. cbv [summarise bind on_world zoom provider_chat lift_outcome fst snd].
  now rewrite H1, H2.
Qed.

Lemma summarise_append_raises al prompt cm s w r d c text e :
  chat (provider al) (chat_count w) (consolidation_messages prompt) = Ok r ->
  json_loads al (clean_response (content r)) = Ok (PDict d) ->
  PyVal.lookup "history_entry" d = Some (PStr (String c text)) ->
  append_error (w_memory w) = Some e ->
  fst (summarise al prompt cm (s, w)) = Raise e.
Proof.
  intros H1 H2 H3 H4.
  cbv [summarise bind on_world zoom provider_chat lift_outcome fst snd].
  rewrite H1, H2. cbv [data_get]. rewrite H3.
  cbv [PyVal.truthy String.eqb negb text_of' text_of on_world zoom bind ret fst snd
       append_history get fail_if].
  cbn [set_chats w_memory]. rewrite H4. reflexivity.
Qed.


Lemma summarise_write_raises al prompt cm s w r d c text e :
  chat (provider al) (chat_count w) (consolidation_messages prompt) = Ok r ->
  json_loads al (clean_response (content r)) = Ok (PDict d) ->
  PyVal.lookup "history_entry" d = None ->
  PyVal.lookup "memory_update" d = Some (PStr (String c text)) ->
  String.eqb (String c text) cm = false ->
  write_error (w_memory w) = Some e ->
  fst (summarise al prompt cm (s, w)) = Raise e.
Proof.
  intros H1 H2 H3 H4 H5 H6.
  cbv [summarise bind on_world zoom provider_chat lift_outcome fst snd].
  rewrite H1, H2. cbv [data_get]. rewrite H3. cbv [ret]. rewrite H4.
  assert (Hne : PyVal.truthy (PStr (String c text))
                && negb (PyVal.eqb (PStr (String c text)) (PStr cm)) = true).
  { cbn [PyVal.truthy PyVal.eqb]. rewrite H5. reflexivity. }
  rewrite Hne.
  cbv [text_of' text_of on_world zoom bind ret fst snd write_long_term get fail_if].
  cbn [set_chats w_memory]. rewrite H6. reflexivity.
Qed.

(** What a consolidation call that reaches its [try] block does. *)
Lemma consolidate_from_setup al archive_all s w keep_count prompt cm s1 w1 :
  consolidation_setup al archive_all (s, w)
  = (Ok (Some (keep_count, prompt, cm)), (s1, w1)) ->
  s1 = s /\
  fst (_consolidate_memory al archive_all (s, w)) = Ok tt /\
  match summarise al prompt cm (s, w1) with
  | (Raise e, (_, w2)) =>
      snd (_consolidate_memory al archive_all (s, w))
      = (s, set_log (consolidation_failed e :: w_log w2) w2)
  | (Ok _, (_, w2)) =>
      let trimmed := with_messages (retained keep_count s) s in
      fst (snd (_consolidate_memory al archive_all (s, w))) = trimmed /\
      match save trimmed (w_sessions w2) with
      | (Ok _, m) =>
          sessions_dir (w_sessions (snd (snd (_consolidate_memory al archive_all (s, w)))))
          = sessions_dir m
      | (Raise e, m) =>
          w_log (snd (snd (_consolidate_memory al archive_all (s, w))))
          = consolidation_failed e :: w_log w2
      end
  end.
Proof.
  intros Hsetup.
  assert (Hs1 : s1 = s).
  { pose proof (setup_keeps_session al archive_all (s, w)) as H.
    rewrite Hsetup in H. exact H. }
  subst s1. split; [reflexivity|].
  unfold _consolidate_memory. rewrite (bind_ok _ _ _ _ _ Hsetup).
  match goal with |- context [try_except ?c ?h (s, w1)] =>
    assert (E : try_except c h (s, w1)
                = match summarise al prompt cm (s, w1) with
                  | (Ok _, sw2) =>
                      match trim_and_save keep_count sw2 with
                      | (Ok a, sw3) => (Ok a, sw3)
                      | (Raise e, sw3) => h e sw3
                      end
                  | (Raise e, sw2) => h e sw2
                  end)
  end.
  { unfold try_except, bind.
    destruct (summarise al prompt cm (s, w1)) as [[[]|e] sw2]; reflexivity. }
  rewrite E. clear E.
  pose proof (summarise_keeps_session al prompt cm (s, w1)) as Hks. cbn [fst] in Hks.
  destruct (summarise al prompt cm (s, w1)) as [[[]|e] [s2 w2]]; cbn [fst snd] in Hks;
    subst s2.
  - pose proof (trim_and_save_spec keep_count s w2) as Hts. cbv zeta in Hts.
    destruct (save _ (w_sessions w2)) as [[[]|e] m]; rewrite Hts.
    + split; [reflexivity|]. cbv zeta. split; reflexivity.
    + split; [reflexivity|]. cbv zeta. split; reflexivity.
  - split; reflexivity.
Qed.

End Consolidation.

Section Fuel.
Context {T : Type}.
Implicit Types (w : world T) (al : AgentLoop T).

(** The fuel of [react_loop] is never what stops it: any two amounts that
    cover the turns the ceiling leaves give the same run. *)
Lemma react_loop_fuel al track f1 f2 st w :
  (Z.to_nat (max_iterations al - ls_iteration st) <= f1)%nat ->
  (Z.to_nat (max_iterations al - ls_iteration st) <= f2)%nat ->
  react_loop al track f1 st w = react_loop al track f2 st w.
Proof.
  revert f2 st w. induction f1 as [|f1 IH]; intros f2 st w H1 H2.
  - rewrite !react_loop_exit by lia. reflexivity.
  - destruct (Z.lt_ge_cases (ls_iteration st) (max_iterations al)) as [Hlt | Hge].
    2:{ rewrite !react_loop_exit by lia. reflexivity. }
    destruct f2 as [|f2]; [lia|].
    rewrite !react_loop_turn by exact Hlt. cbv zeta.
    destruct (chat (provider al) (chat_count w) (ls_messages st)) as [response|e];
      [|reflexivity].
    destruct (has_tool_calls response); [|reflexivity].
    destruct (on_tool_calls_spec al track response (next_turn st)
                (set_chats (ls_messages st :: w_chats w) w))
      as (st2 & w2 & -> & Hi & _).
    cbn [next_turn ls_iteration] in Hi.
    apply IH; rewrite Hi; lia.
Qed.

(** [run_react_loop] hands the loop all the fuel it can use: the run
    ends because the model answered in text, because the ceiling was
    reached, or because the model raised. *)
Lemma run_react_loop_ends al track msgs w :
  match fst (run_react_loop al track msgs w) with
  | Ok st =>
      max_iterations al <= ls_iteration st \/
      (0 < ls_iteration st /\ exists response,
          chat (provider al) (Nat.pred (chat_count (snd (run_react_loop al track msgs w))))
               (ls_messages st) = Ok response /\
          has_tool_calls response = false /\
          ls_final_content st = content response)
  | Raise _ => True
  end.
Proof.
  unfold run_react_loop.
  assert (Hgen : forall fuel st w0,
    (Z.to_nat (max_iterations al - ls_iteration st) <= fuel)%nat ->
    0 <= ls_iteration st ->
    match fst (react_loop al track fuel st w0) with
    | Ok st' =>
        max_iterations al <= ls_iteration st' \/
        (0 < ls_iteration st' /\ exists response,
            chat (provider al) (Nat.pred (chat_count (snd (react_loop al track fuel st w0))))
                 (ls_messages st') = Ok response /\
            has_tool_calls response = false /\
            ls_final_content st' = content response)
    | Raise _ => True
    end).
  { induction fuel as [|fuel IH]; intros st w0 Hfuel Hpos.
    - rewrite react_loop_exit by lia. cbn. left. lia.
    - destruct (Z.lt_ge_cases (ls_iteration st) (max_iterations al)) as [Hlt | Hge].
      2:{ rewrite react_loop_exit by lia. cbn. left. lia. }
      rewrite react_loop_turn by exact Hlt. cbv zeta.
      destruct (chat (provider al) (chat_count w0) (ls_messages st)) as [response|e] eqn:Hchat;
        [|exact I].
      destruct (has_tool_calls response) eqn:Hhas.
      + destruct (on_tool_calls_spec al track response (next_turn st)
                    (set_chats (ls_messages st :: w_chats w0) w0))
          as (st2 & w2 & -> & Hi & _).
        cbn [next_turn ls_iteration] in Hi. apply IH; rewrite Hi; lia.
      + cbn [fst snd ls_iteration ls_messages ls_final_content].
        right. split; [lia|]. exists response.
        unfold chat_count in *. cbn [w_chats set_chats length Nat.pred].
        split; [exact Hchat|]. split; [exact Hhas | reflexivity]. }
  apply Hgen; cbn; lia.
Qed.

End Fuel.


Section Feedback.
Context {T : Type}.
Implicit Types (w : world T) (al : AgentLoop T).




End Feedback.


Section Sandbox.
Context {F : Type} `{PathLib F}.
Implicit Types (w : world F) (al : AgentLoop F).

(** The tool state the [for] loop leaves is the one its calls, run in
    order, leave. *)
Lemma exec_tool_calls_tools al track calls st w :
  w_tools (snd (exec_tool_calls al track calls st w)) = run_calls (tools al) calls (w_tools w).
Proof.
  revert st w. induction calls as [|tc calls IH]; intros st w; [reflexivity|].
  cbn [exec_tool_calls run_calls].
  unfold bind at 1, logger at 1, modify at 1. unfold bind at 1.
  unfold tools_execute, zoom. cbn [w_tools set_log].
  destruct (execute_returns (tools al) (tc_name tc) (tc_arguments tc) (w_tools w)) as [s Hs].
  destruct (execute (tools al) (tc_name tc) (tc_arguments tc) (w_tools w)) as [r env'].
  cbn [fst] in Hs. subst r. cbn [snd]. rewrite IH. reflexivity.
Qed.


End Sandbox.


(** C3. Processing one inbound message makes at most
    [max_iterations + 1] inference calls, the one call of a memory
    consolidation included (for a ceiling below zero the loop makes none,
    and the bound reads 1).  The ReAct loop itself makes [n] calls with
    [n] at most [max_iterations], and when it ends its counter stands at
    [n]: one step of the counter per call. *)
Theorem inference_calls_bounded {T} (al : AgentLoop T) msg session_key track msgs
    (w : world T) :
  ((chat_count w <= chat_count (snd (_process_message al msg session_key w)))%nat /\
   Z.of_nat (chat_count (snd (_process_message al msg session_key w)))
   <= Z.of_nat (chat_count w) + Z.max 0 (max_iterations al) + 1) /\
  exists n : nat,
    chat_count (snd (run_react_loop al track msgs w)) = (chat_count w + n)%nat /\
    Z.of_nat n <= Z.max 0 (max_iterations al) /\
    match fst (run_react_loop al track msgs w) with
    | Ok st => ls_iteration st = Z.of_nat n
    | Raise _ => True
    end.
Proof.
  split.
  - pose proof (process_message_cam al msg session_key w) as H. lia.
  - unfold run_react_loop.
    destruct (react_loop_calls al track (Z.to_nat (max_iterations al))
                (initial_loop_state msgs) w) as (n & Hn & _ & Hmax & _ & Hres).
    exists n. cbn [initial_loop_state ls_iteration] in *.
    split; [exact Hn|]. split; [lia|].
    destruct (fst _); [lia | exact I].
Qed.





(** C9, as amended.  Take a consolidation call that reaches its [try]
    block.  The call returns; nothing raised inside the block reaches the
    caller.  A fault in the inference call, in parsing its answer or in
    writing a memory file (they all raise inside [summarise]) is logged
    and leaves the session object exactly as it was.  When those steps
    succeed the session is cut to its retained tail before it is saved:
    a fault in that save is logged too, but the cut stays. *)
Theorem consolidation_faults_are_contained {T} (al : AgentLoop T) archive_all
    (s : Session) (w : world T) keep_count prompt cm s1 w1 :
  consolidation_setup al archive_all (s, w)
  = (Ok (Some (keep_count, prompt, cm)), (s1, w1)) ->
  fst (_consolidate_memory al archive_all (s, w)) = Ok tt /\
  match summarise al prompt cm (s, w1) with
  | (Raise e, (_, w2)) =>
      snd (_consolidate_memory al archive_all (s, w))
      = (s, set_log (consolidation_failed e :: w_log w2) w2)
  | (Ok _, (_, w2)) =>
      let trimmed := with_messages (retained keep_count s) s in
      fst (snd (_consolidate_memory al archive_all (s, w))) = trimmed /\
      match save trimmed (w_sessions w2) with
      | (Ok _, m) =>
          sessions_dir (w_sessions (snd (snd (_consolidate_memory al archive_all (s, w)))))
          = sessions_dir m
      | (Raise e, m) =>
          w_log (snd (snd (_consolidate_memory al archive_all (s, w))))
          = consolidation_failed e :: w_log w2
      end
  end /\
  (forall e,
     chat (provider al) (chat_count w1) (consolidation_messages prompt) = Raise e ->
     fst (summarise al prompt cm (s, w1)) = Raise e) /\
  (forall r e,
     chat (provider al) (chat_count w1) (consolidation_messages prompt) = Ok r ->
     json_loads al (clean_response (content r)) = Raise e ->
     fst (summarise al prompt cm (s, w1)) = Raise e) /\
  (forall r d c text e,
     chat (provider al) (chat_count w1) (consolidation_messages prompt) = Ok r ->
     json_loads al (clean_response (content r)) = Ok (PDict d) ->
     PyVal.lookup "history_entry" d = Some (PStr (String c text)) ->
     append_error (w_memory w1) = Some e ->
     fst (summarise al prompt cm (s, w1)) = Raise e).
Proof.
  intros Hsetup.
  destruct (consolidate_from_setup al archive_all s w keep_count prompt cm s1 w1 Hsetup)
    as (_ & Hok & Hcases).
  split; [exact Hok|]. split; [exact Hcases|].
  split; [intros e; apply summarise_chat_raises|].
  split; [intros r e; apply summarise_json_raises|].
  intros r d c text e. apply summarise_append_raises.
Qed.

(** The amended C9 at a three-turn session, a "/new"-style call and a
    model that cannot be reached. *)
Lemma consolidation_faults_witness :
  fst (_consolidate_memory (agent unreachable 20) true (three_turn_session, world0)) = Ok tt /\
  fst (snd (_consolidate_memory (agent unreachable 20) true (three_turn_session, world0)))
  = three_turn_session.
Proof.
  edestruct (consolidation_faults_are_contained (agent unreachable 20) true
               three_turn_session world0) as (Hok & Hcases & _).
  { vm_compute. reflexivity. }
  split; [exact Hok|].
  vm_compute in Hcases. vm_compute.
  exact (f_equal fst Hcases).
Defined.

(** C9 fails as stated when the fault is in the save that ends the call.
    Here the model answers with the summary, both memory files are
    written, and the session file cannot be written (the disk is full).
    The fault is caught and logged, but the session, which had three
    turns, is left with none. *)
Theorem consolidation_claim_counterexample :
  let run := _consolidate_memory (agent (answers (PyVal.json_dumps summary)) 20) true
               (three_turn_session, world_full_disk) in
  fst run = Ok tt /\
  head (w_log (snd (snd run)))
  = Some (ERROR, "Memory consolidation failed: No space left on device") /\
  length (messages three_turn_session) = 3%nat /\
  messages (fst (snd run)) = [] /\
  messages (fst (snd run)) <> messages three_turn_session.
Proof. vm_compute. repeat split. discriminate. Qed.





End LoopFacts.

(** ** Background delegates *)

Module SubagentFacts.
Import Registry Bus Agent Subagent Observe Examples.
Import RegistryFacts LoopFacts.

Section Delegates.
Context {T : Type}.
Implicit Types (w : world T) (mgr : SubagentManager T).



(** [_announce_result] puts exactly one message on the inbound queue. *)
Lemma announce_result_spec task_id label task result origin status w :
  exists w', _announce_result task_id label task result origin status w = (Ok tt, w') /\
    w_inbound w' = w_inbound w ++ [announcement (w_clock w) label task result origin status] /\
    w_running_tasks w' = w_running_tasks w /\ w_scheduled w' = w_scheduled w /\
    w_clock w' = w_clock w.
Proof. eexists. split; [reflexivity|]. repeat split. Qed.



End Delegates.



End SubagentFacts.
